(** * GitLab CI/CD variables auditor ([gitlab.py]): model and properties

    The script walks the paginated project listing of a GitLab instance,
    fetches the CI/CD variables of every project, folds the non-empty
    answers into a report dictionary, writes the report as JSON and prints
    a sorted summary.

    The model follows the script function by function.  Python values are
    the values [response.json()] can produce, fractional numbers and
    characters above U+00FF apart; dictionaries keep their insertion order, failing operations raise the
    exception Python raises, the GitLab instance is a function from
    requests to replies, and every HTTP call and every line of the
    summary is recorded in the trace of the computation.  The progress
    lines of [get_all_projects], [audit_secrets] and [save_results] have
    no part in what these functions return and are left out. *)

From Stdlib Require Import List ZArith String Ascii Bool Lia Permutation Sorted.
Import ListNotations.
Local Open Scope string_scope.
Local Open Scope Z_scope.
Local Open Scope list_scope.

(** ** Python values *)

Set Warnings "-register-all".

(** The objects the script handles: what [json.loads] builds ([None],
    booleans, integers, strings, lists, dictionaries with string keys).
    A dictionary is the list of its items in insertion order; a string
    is the list of its characters, each a code point below 256. *)
Inductive pyval : Type :=
| PNone
| PBool (b : bool)
| PInt (n : Z)
| PStr (s : string)
| PList (l : list pyval)
| PDict (d : list (string * pyval)).

(** The exceptions the script can meet outside its [try] blocks. *)
Inductive exn : Type := KeyError | TypeError | AttributeError.

(** Outcome of a computation: a value, a raised exception, or a loop that
    was cut by the step bound of the model. *)
Inductive res (A : Type) : Type :=
| Ret (a : A)
| Raise (e : exn)
| OutOfFuel.
Arguments Ret {A} a.
Arguments Raise {A} e.
Arguments OutOfFuel {A}.

Definition rbind {A B : Type} (c : res A) (k : A -> res B) : res B :=
  match c with
  | Ret a => k a
  | Raise e => Raise e
  | OutOfFuel => OutOfFuel
  end.

Notation "'let*' x ':=' c 'in' k" := (rbind c (fun x => k))
  (at level 10, x pattern, c at level 100, k at level 200).

Fixpoint mapM {A B : Type} (f : A -> res B) (l : list A) : res (list B) :=
  match l with
  | [] => Ret []
  | x :: l' => let* y := f x in let* ys := mapM f l' in Ret (y :: ys)
  end.

(** Computations that leave a trace of events [E] (the HTTP calls made,
    or the lines printed) beside their outcome.  The trace is dropped when
    an exception escapes. *)
Definition M (E A : Type) : Type := res (A * list E).

Definition ret {E A : Type} (a : A) : M E A := Ret (a, []).

Definition bind {E A B : Type} (c : M E A) (k : A -> M E B) : M E B :=
  match c with
  | Ret (a, w) =>
      match k a with
      | Ret (b, w') => Ret (b, w ++ w')
      | Raise e => Raise e
      | OutOfFuel => OutOfFuel
      end
  | Raise e => Raise e
  | OutOfFuel => OutOfFuel
  end.

Definition lift {E A : Type} (c : res A) : M E A :=
  match c with
  | Ret a => Ret (a, [])
  | Raise e => Raise e
  | OutOfFuel => OutOfFuel
  end.

Notation "x <- c ;; k" := (bind c (fun x => k))
  (at level 200, c at level 100, k at level 200, right associativity).
Notation "c ;;; k" := (bind c (fun _ => k))
  (at level 200, k at level 200, right associativity).

(** [for x in l: body], the body threading the accumulator [a]. *)
Fixpoint for_each {E A B : Type} (body : A -> B -> M E B) (l : list A) (a : B)
  : M E B :=
  match l with
  | [] => ret a
  | x :: l' => a' <- body x a ;; for_each body l' a'
  end.

(** ** Operations of Python on these values *)

(** [bool(v)]. *)
Definition truthy (v : pyval) : bool :=
  match v with
  | PNone => false
  | PBool b => b
  | PInt n => negb (n =? 0)
  | PStr s => negb (s =? "")%string
  | PList l => match l with [] => false | _ => true end
  | PDict d => match d with [] => false | _ => true end
  end.

(** [len(v)]. *)
Definition py_len (v : pyval) : res Z :=
  match v with
  | PList l => Ret (Z.of_nat (List.length l))
  | PDict d => Ret (Z.of_nat (List.length d))
  | PStr s => Ret (Z.of_nat (String.length s))
  | _ => Raise TypeError
  end.

Fixpoint chars (s : string) : list pyval :=
  match s with
  | EmptyString => []
  | String c s' => PStr (String c EmptyString) :: chars s'
  end.

(** [list(v)]: what iterating over [v] yields. *)
Definition py_iter (v : pyval) : res (list pyval) :=
  match v with
  | PList l => Ret l
  | PDict d => Ret (map (fun kv => PStr (fst kv)) d)
  | PStr s => Ret (chars s)
  | _ => Raise TypeError
  end.

Fixpoint lookup (k : string) (d : list (string * pyval)) : option pyval :=
  match d with
  | [] => None
  | (k', v) :: d' => if (k' =? k)%string then Some v else lookup k d'
  end.

(** [v[k]] for a string [k]. *)
Definition subscript (v : pyval) (k : string) : res pyval :=
  match v with
  | PDict d => match lookup k d with
               | Some x => Ret x
               | None => Raise KeyError
               end
  | _ => Raise TypeError
  end.

(** [v.get(k, default)]; only dictionaries have the method. *)
Definition py_get (v : pyval) (k : string) (default : pyval) : res pyval :=
  match v with
  | PDict d => match lookup k d with
               | Some x => Ret x
               | None => Ret default
               end
  | _ => Raise AttributeError
  end.

(** [d[k] = x]: an existing key keeps its place, a new key goes last. *)
Fixpoint store (k : string) (x : pyval) (d : list (string * pyval))
  : list (string * pyval) :=
  match d with
  | [] => [(k, x)]
  | (k', v) :: d' => if (k' =? k)%string then (k', x) :: d' else (k', v) :: store k x d'
  end.

(** [v[k] += n] where [v[k]] is an integer. *)
Definition iadd (v : pyval) (k : string) (n : Z) : res pyval :=
  match v with
  | PDict d => match lookup k d with
               | Some (PInt m) => Ret (PDict (store k (PInt (m + n)) d))
               | Some (PBool b) => Ret (PDict (store k (PInt (Z.b2z b + n)) d))
               | Some _ => Raise TypeError
               | None => Raise KeyError
               end
  | _ => Raise TypeError
  end.

(** [v[k].append(x)]. *)
Definition append_at (v : pyval) (k : string) (x : pyval) : res pyval :=
  match v with
  | PDict d => match lookup k d with
               | Some (PList l) => Ret (PDict (store k (PList (l ++ [x])) d))
               | Some _ => Raise AttributeError
               | None => Raise KeyError
               end
  | _ => Raise TypeError
  end.

(** [a == b]: integers and booleans compare by value, dictionaries
    regardless of the order of their items. *)
Fixpoint py_eq (a b : pyval) {struct a} : bool :=
  match a, b with
  | PNone, PNone => true
  | PBool x, PBool y => Bool.eqb x y
  | PBool x, PInt y => Z.b2z x =? y
  | PInt x, PBool y => x =? Z.b2z y
  | PInt x, PInt y => x =? y
  | PStr s, PStr t => (s =? t)%string
  | PList l, PList m =>
      (fix go (l m : list pyval) {struct l} : bool :=
         match l, m with
         | [], [] => true
         | x :: l', y :: m' => py_eq x y && go l' m'
         | _, _ => false
         end) l m
  | PDict d, PDict e =>
      (List.length d =? List.length e)%nat &&
      (fix go (d : list (string * pyval)) {struct d} : bool :=
         match d with
         | [] => true
         | (k, v) :: d' =>
             match lookup k e with
             | Some v' => py_eq v v'
             | None => false
             end && go d'
         end) d
  | _, _ => false
  end.

(** [a < b]: defined between numbers, between strings (by code point) and
    between lists (first differing item decides); a [TypeError] otherwise. *)
Fixpoint py_lt (a b : pyval) {struct a} : res bool :=
  match a, b with
  | PBool x, PBool y => Ret (Z.b2z x <? Z.b2z y)
  | PBool x, PInt y => Ret (Z.b2z x <? y)
  | PInt x, PBool y => Ret (x <? Z.b2z y)
  | PInt x, PInt y => Ret (x <? y)
  | PStr s, PStr t => Ret (String.ltb s t)
  | PList l, PList m =>
      (fix go (l m : list pyval) {struct l} : res bool :=
         match l, m with
         | [], [] => Ret false
         | [], _ :: _ => Ret true
         | _ :: _, [] => Ret false
         | x :: l', y :: m' => if py_eq x y then go l' m' else py_lt x y
         end) l m
  | _, _ => Raise TypeError
  end.

(** ** The GitLab instance *)

(** The query of the project listing. *)
Record params : Type := {
  membership : string;
  per_page : Z;
  page : Z;
  simple : string
}.

(** The two calls the script makes, both with the token header:
    [GET /api/v4/projects] with [params], and
    [GET /api/v4/projects/{project_id}/variables]. *)
Inductive request : Type :=
| GET_projects (p : params)
| GET_variables (project_id : pyval).

(** What a [try] block of the script sees of [requests.get],
    [raise_for_status] and [json]: either one of them raised a
    [RequestException] (no connection, an error status, a denied
    permission), or the response came with its headers ([headers k] is
    [None] when [k not in response.headers]) and its decoded body. *)
Inductive reply : Type :=
| Failure
| Success (headers : string -> option string) (json : pyval).

Section Auditor.

(** The instance, as seen with the auditor's URL and token. *)
Variable server : request -> reply.

(** One HTTP call, recorded in the trace. *)
Definition requests_get (req : request) : M request reply :=
  Ret (server req, [req]).

(** [not headers['x-next-page']] for a present header. *)
Definition more_pages (headers : string -> option string) : bool :=
  match headers "x-next-page" with
  | None => false
  | Some v => negb (v =? "")%string
  end.

(** The [while True] loop of [get_all_projects]; [fuel] bounds the number
    of iterations. *)
Fixpoint fetch_pages (fuel : nat) (projects : list pyval) (page : Z)
  : M request (list pyval) :=
  match fuel with
  | O => OutOfFuel
  | S fuel' =>
      r <- requests_get (GET_projects {| membership := "true"; per_page := 100;
                                         page := page; simple := "true" |}) ;;
      match r with
      | Failure => ret projects
      | Success headers page_projects =>
          if negb (truthy page_projects) then ret projects
          else
            items <- lift (py_iter page_projects) ;;
            let projects := projects ++ items in
            if negb (more_pages headers) then ret projects
            else fetch_pages fuel' projects (page + 1)
      end
  end.

Definition get_all_projects (fuel : nat) : M request (list pyval) :=
  fetch_pages fuel [] 1.

Definition get_project_variables (project_id : pyval) : M request pyval :=
  r <- requests_get (GET_variables project_id) ;;
  match r with
  | Failure => ret (PList [])
  | Success _ body => ret body
  end.

(** The dictionary appended for one variable of the API. *)
Definition variable_record (var : pyval) : res pyval :=
  let* key := py_get var "key" PNone in
  let* protected := py_get var "protected" (PBool false) in
  let* masked := py_get var "masked" (PBool false) in
  let* environment_scope := py_get var "environment_scope" (PStr "*") in
  let* variable_type := py_get var "variable_type" (PStr "env_var") in
  Ret (PDict [("key", key); ("protected", protected); ("masked", masked);
              ("environment_scope", environment_scope);
              ("variable_type", variable_type)]).

(** The body of the [for] loop of [audit_secrets]. *)
Definition audit_project (project : pyval) (results : pyval)
  : M request pyval :=
  project_id <- lift (subscript project "id") ;;
  project_path <- lift (subscript project "path_with_namespace") ;;
  variables <- get_project_variables project_id ;;
  if truthy variables then
    n <- lift (py_len variables) ;;
    results <- lift (iadd results "projects_with_secrets" 1) ;;
    results <- lift (iadd results "total_secrets" n) ;;
    name <- lift (subscript project "name") ;;
    web_url <- lift (subscript project "web_url") ;;
    vars <- lift (py_iter variables) ;;
    records <- lift (mapM variable_record vars) ;;
    let project_data := PDict [("id", project_id); ("name", name);
                               ("path", project_path); ("web_url", web_url);
                               ("variables", PList records)] in
    lift (append_at results "projects" project_data)
  else ret results.

(** [audit_secrets]; [now] is [datetime.now().isoformat()]. *)
Definition audit_secrets (fuel : nat) (now : string) : M request pyval :=
  projects <- get_all_projects fuel ;;
  let results := PDict [("audit_date", PStr now);
                        ("total_projects", PInt (Z.of_nat (List.length projects)));
                        ("projects_with_secrets", PInt 0);
                        ("total_secrets", PInt 0);
                        ("projects", PList [])] in
  for_each audit_project projects results.

End Auditor.

(** ** The console summary *)

(** [sorted(v, key=key, reverse=reverse)]: the keys are computed first,
    then the items are ordered by [<] on their keys.  Python's sort is
    stable; a stable insertion sort stands for it, and [reverse=True]
    reverses the list before and after the sort, as CPython does. *)
Fixpoint insert_keyed (x : pyval * pyval) (l : list (pyval * pyval))
  : res (list (pyval * pyval)) :=
  match l with
  | [] => Ret [x]
  | y :: l' =>
      let* b := py_lt (fst y) (fst x) in
      if b then let* r := insert_keyed x l' in Ret (y :: r)
      else Ret (x :: y :: l')
  end.

Fixpoint sort_keyed (l : list (pyval * pyval)) : res (list (pyval * pyval)) :=
  match l with
  | [] => Ret []
  | x :: l' => let* s := sort_keyed l' in insert_keyed x s
  end.

Definition sorted (key : pyval -> res pyval) (reverse : bool) (v : pyval)
  : res (list pyval) :=
  let* l := py_iter v in
  let* keys := mapM key l in
  let keyed := combine keys l in
  let* s := sort_keyed (if reverse then rev keyed else keyed) in
  Ret (map snd (if reverse then rev s else s)).

(** A printed line: its literal text and, in place, the values an
    f-string formats. *)
Inductive frag : Type :=
| Text (s : string)
| Str (v : pyval).

Definition line : Type := list frag.

Definition print (l : line) : M line unit := Ret (tt, [l]).

Definition nl : string := String "010"%char EmptyString.

(** [s * n]. *)
Fixpoint times (s : string) (n : nat) : string :=
  match n with
  | O => EmptyString
  | S n' => (s ++ times s n')%string
  end.

(** The body of the inner loop of [display_summary]. *)
Definition display_variable (var : pyval) : M line unit :=
  protected <- lift (subscript var "protected") ;;
  let flags := if truthy protected then ["🔒 Protected"%string] else [] in
  masked <- lift (subscript var "masked") ;;
  let flags := if truthy masked then flags ++ ["🎭 Masked"%string] else flags in
  scope <- lift (subscript var "environment_scope") ;;
  var_type <- lift (subscript var "variable_type") ;;
  let flag_str := match flags with
                  | [] => "No flags"%string
                  | _ => String.concat " | " flags
                  end in
  key <- lift (subscript var "key") ;;
  print [Text "   • "; Str key] ;;;
  print [Text "     Type: "; Str var_type; Text " | Scope: "; Str scope;
         Text " | "; Text flag_str].

(** The body of the outer loop of [display_summary]. *)
Definition display_project (project : pyval) : M line unit :=
  name <- lift (subscript project "name") ;;
  print [Text (nl ++ "📁 Project: "); Str name] ;;;
  path <- lift (subscript project "path") ;;
  print [Text "   Path: "; Str path] ;;;
  web_url <- lift (subscript project "web_url") ;;
  print [Text "   URL: "; Str web_url] ;;;
  variables <- lift (subscript project "variables") ;;
  n <- lift (py_len variables) ;;
  print [Text "   Secrets: "; Str (PInt n)] ;;;
  print [Text ("   " ++ times "-" 76)] ;;;
  variables <- lift (subscript project "variables") ;;
  vars <- lift (sorted (fun x => subscript x "key") false variables) ;;
  for_each (fun var _ => display_variable var) vars tt.

Definition display_summary (results : pyval) : M line unit :=
  print [Text (nl ++ times "=" 80)] ;;;
  print [Text "📊 GITLAB CI/CD VARIABLES AUDIT SUMMARY"] ;;;
  print [Text (times "=" 80)] ;;;
  audit_date <- lift (subscript results "audit_date") ;;
  print [Text "Audit Date: "; Str audit_date] ;;;
  total_projects <- lift (subscript results "total_projects") ;;
  print [Text "Total Projects Scanned: "; Str total_projects] ;;;
  projects_with_secrets <- lift (subscript results "projects_with_secrets") ;;
  print [Text "Projects with Secrets: "; Str projects_with_secrets] ;;;
  total_secrets <- lift (subscript results "total_secrets") ;;
  print [Text "Total Secrets Found: "; Str total_secrets] ;;;
  print [Text (times "=" 80 ++ nl)] ;;;
  projects <- lift (subscript results "projects") ;;
  if negb (truthy projects) then
    print [Text "No secrets found in any accessible projects."]
  else
    sorted_projects <-
      lift (sorted (fun x => let* vs := subscript x "variables" in
                             let* n := py_len vs in Ret (PInt n))
                   true projects) ;;
    for_each (fun project _ => display_project project) sorted_projects tt ;;;
    print [Text (nl ++ times "=" 80)].

(** ** The persisted report *)

(** The text of a file is the list of its characters. *)
Definition text : Type := list ascii.

Definition dq : ascii := "034"%char.
Definition bs : ascii := "092"%char.

(** One lower-case hexadecimal digit. *)
Definition hex_digit (n : N) : ascii :=
  ascii_of_N (if (n <? 10)%N then 48 + n else 87 + n).

(** [json.dump] escapes with [ensure_ascii]: the quote, the backslash and
    the short control escapes, [\u00xx] for every other character outside
    the printable ASCII range. *)
Definition escape (c : ascii) : text :=
  let n := N_of_ascii c in
  if (n =? 34)%N then [bs; dq]
  else if (n =? 92)%N then [bs; bs]
  else if (n =? 10)%N then [bs; "n"%char]
  else if (n =? 13)%N then [bs; "r"%char]
  else if (n =? 9)%N then [bs; "t"%char]
  else if (n =? 8)%N then [bs; "b"%char]
  else if (n =? 12)%N then [bs; "f"%char]
  else if ((n <? 32) || (126 <? n))%N
       then [bs; "u"%char; "0"%char; "0"%char; hex_digit (n / 16); hex_digit (n mod 16)]
  else [c].

Fixpoint escape_all (s : string) : text :=
  match s with
  | EmptyString => []
  | String c s' => escape c ++ escape_all s'
  end.

Definition encode_str (s : string) : text := dq :: escape_all s ++ [dq].

Fixpoint uint_chars (u : Decimal.uint) : text :=
  match u with
  | Decimal.Nil => []
  | Decimal.D0 u' => "0"%char :: uint_chars u'
  | Decimal.D1 u' => "1"%char :: uint_chars u'
  | Decimal.D2 u' => "2"%char :: uint_chars u'
  | Decimal.D3 u' => "3"%char :: uint_chars u'
  | Decimal.D4 u' => "4"%char :: uint_chars u'
  | Decimal.D5 u' => "5"%char :: uint_chars u'
  | Decimal.D6 u' => "6"%char :: uint_chars u'
  | Decimal.D7 u' => "7"%char :: uint_chars u'
  | Decimal.D8 u' => "8"%char :: uint_chars u'
  | Decimal.D9 u' => "9"%char :: uint_chars u'
  end.

(** [int.__repr__]. *)
Definition repr_int (n : Z) : text :=
  match Z.to_int n with
  | Decimal.Pos u => uint_chars u
  | Decimal.Neg u => "-"%char :: uint_chars u
  end.

(** A line break and the indentation of a nesting level, two spaces each. *)
Definition newline_indent (level : nat) : text :=
  "010"%char :: repeat " "%char (2 * level).

(** [json.dumps(v, indent=2)] at a nesting level: items one per line,
    [","] between items, [": "] after a key, [[]] and [{}] for the empty
    containers. *)
Fixpoint encode (level : nat) (v : pyval) {struct v} : text :=
  match v with
  | PNone => list_ascii_of_string "null"
  | PBool true => list_ascii_of_string "true"
  | PBool false => list_ascii_of_string "false"
  | PInt n => repr_int n
  | PStr s => encode_str s
  | PList [] => list_ascii_of_string "[]"
  | PList (x :: l) =>
      "["%char :: newline_indent (S level) ++ encode (S level) x ++
      (fix rest (l : list pyval) : text :=
         match l with
         | [] => newline_indent level ++ ["]"%char]
         | y :: l' =>
             ","%char :: newline_indent (S level) ++ encode (S level) y ++ rest l'
         end) l
  | PDict [] => list_ascii_of_string "{}"
  | PDict ((k, x) :: d) =>
      "{"%char :: newline_indent (S level) ++ encode_str k ++
      ":"%char :: " "%char :: encode (S level) x ++
      (fix rest (d : list (string * pyval)) : text :=
         match d with
         | [] => newline_indent level ++ ["}"%char]
         | (k', y) :: d' =>
             ","%char :: newline_indent (S level) ++ encode_str k' ++
             ":"%char :: " "%char :: encode (S level) y ++ rest d'
         end) d
  end.

(** [save_results]: the text written to the report file. *)
Definition save_results (results : pyval) : text := encode 0 results.

(** ** The auditor and the command line *)

(** [s.rstrip(chars)] and [s.lstrip(chars)], the characters to strip
    given as a test; [s.strip()] strips the blanks of Python ([isspace])
    at both ends. *)
Fixpoint rstrip (chars : ascii -> bool) (s : string) : string :=
  match s with
  | EmptyString => EmptyString
  | String c s' =>
      match rstrip chars s' with
      | EmptyString => if chars c then EmptyString else String c EmptyString
      | r => String c r
      end
  end.

Fixpoint lstrip (chars : ascii -> bool) (s : string) : string :=
  match s with
  | EmptyString => EmptyString
  | String c s' => if chars c then lstrip chars s' else s
  end.

Definition isspace (c : ascii) : bool :=
  let n := N_of_ascii c in
  ((9 <=? n) && (n <=? 13) || (28 <=? n) && (n <=? 32) || (n =? 133) || (n =? 160))%N.

Definition strip (s : string) : string := rstrip isspace (lstrip isspace s).

(** The attributes of a [GitLabSecretsAuditor]. *)
Record GitLabSecretsAuditor : Type := {
  token : string;
  gitlab_url : string;
  headers : list (string * string)
}.

Definition __init__ (token gitlab_url : string) : GitLabSecretsAuditor :=
  {| token := token;
     gitlab_url := rstrip (Ascii.eqb "/") gitlab_url;
     headers := [("PRIVATE-TOKEN", token); ("Content-Type", "application/json")]%string |}.

(** What the network answers to a request sent under the base URL
    [gitlab_url] with the given headers. *)
Definition network : Type := string -> list (string * string) -> request -> reply.

(** What a run of the script does, in order: the requests it sends, the
    file it writes, the prompt and the lines it prints.  The progress
    lines of the enumeration, of the audit and of [save_results] are left
    out, as in the models of these; so is what a step did before an
    exception escaped from it. *)
Inductive event : Type :=
| Requested (gitlab_url : string) (headers : list (string * string)) (req : request)
| Saved (filename : string) (content : text)
| Asked (prompt : string)
| Printed (l : line).

(** How a run ends: [main] returns, [sys.exit] is called, an exception
    of the audit or of the summary escapes, [input] meets the end of the
    input, the report file cannot be opened, or the fuel of the
    enumeration runs out. *)
Inductive status : Type :=
| Finished
| SystemExit (code : Z)
| Escaped (e : exn)
| EOFError
| OSError
| Unfinished.

(** [main]: [argv] is [sys.argv], [stdin] the line [input] reads ([None]
    at the end of the input), [writable] tells the files that can be
    opened for writing. *)
Definition main (net : network) (writable : string -> bool)
                (argv : list string) (stdin : option string)
                (fuel : nat) (now : string) : list event * status :=
  let banner := [Printed [Text (times "=" 80)];
                 Printed [Text "GitLab CI/CD Variables (Secrets) Auditor"];
                 Printed [Text (times "=" 80 ++ nl)]] in
  let asked := match argv with
               | _ :: _ :: _ => []
               | _ => [Asked "Enter your GitLab Personal Access Token: "]
               end in
  match (match argv with
         | _ :: t :: _ => Some t
         | _ => option_map strip stdin
         end) with
  | None => (banner ++ asked, EOFError)
  | Some token =>
      if (token =? "")%string then
        (banner ++ asked ++ [Printed [Text "❌ Error: Token is required"]], SystemExit 1)
      else
        let url := match argv with
                   | _ :: _ :: u :: _ => u
                   | _ => "https://gitlab.com"%string
                   end in
        let announced := [Printed [Text "Using GitLab instance: "; Str (PStr url);
                                   Text nl]] in
        let auditor := __init__ token url in
        let server := net auditor.(gitlab_url) auditor.(headers) in
        match audit_secrets server fuel now with
        | Ret (results, calls) =>
            let audited := map (Requested auditor.(gitlab_url) auditor.(headers)) calls in
            let filename := "gitlab_secrets_audit.json"%string in
            if writable filename then
              let saved := [Saved filename (save_results results)] in
              match display_summary results with
              | Ret (_, lines) =>
                  (banner ++ asked ++ announced ++ audited ++ saved ++ map Printed lines,
                   Finished)
              | Raise e => (banner ++ asked ++ announced ++ audited ++ saved, Escaped e)
              | OutOfFuel => (banner ++ asked ++ announced ++ audited ++ saved, Unfinished)
              end
            else (banner ++ asked ++ announced ++ audited, OSError)
        | Raise e => (banner ++ asked ++ announced, Escaped e)
        | OutOfFuel => (banner ++ asked ++ announced, Unfinished)
        end
  end.

(** * Vocabulary of the properties *)

(** ** Requests and replies *)

(** The variables a reply stands for: none when the request failed. *)
Definition reply_body (r : reply) : pyval :=
  match r with
  | Failure => PList []
  | Success _ body => body
  end.

(** The request for page [n] of the listing. *)
Definition page_request (n : Z) : request :=
  GET_projects {| membership := "true"; per_page := 100; page := n; simple := "true" |}.

(** The reply carries a non-empty page and announces a next one. *)
Definition wants_next (r : reply) : bool :=
  match r with
  | Failure => false
  | Success headers body => truthy body && more_pages headers
  end.

(** The continuation rule, as the specification words it.  The reply
    announces a next page when its [x-next-page] header is present and
    not empty; it lacks the signal when the header is absent or empty. *)
Inductive announces_next (headers : string -> option string) : Prop :=
| announces_next_intro v :
    headers "x-next-page" = Some v -> v <> ""%string -> announces_next headers.

Definition lacks_next (headers : string -> option string) : Prop :=
  headers "x-next-page" = None \/ headers "x-next-page" = Some ""%string.

(** The enumeration goes on after a non-empty page that announces a next
    one; it stops at a failed request, at an empty page and at a page
    without the signal. *)
Inductive goes_on : reply -> Prop :=
| goes_on_intro headers body :
    truthy body = true -> announces_next headers -> goes_on (Success headers body).

Inductive stops : reply -> Prop :=
| stops_failure : stops Failure
| stops_empty headers body : truthy body = false -> stops (Success headers body)
| stops_unannounced headers body : lacks_next headers -> stops (Success headers body).

(** The page [p + k] goes on and yields [items_of k], for every [k]
    below [n]. *)
Definition pages_go_on (server : request -> reply) (p : Z) (n : nat)
                       (items_of : nat -> list pyval) : Prop :=
  forall k, (k < n)%nat ->
    exists headers body,
      server (page_request (p + Z.of_nat k)) = Success headers body /\
      truthy body = true /\ py_iter body = Ret (items_of k) /\
      announces_next headers.


(** [n] consecutive page numbers from [p]. *)
Fixpoint page_numbers (p : Z) (n : nat) : list Z :=
  match n with
  | O => []
  | S n' => p :: page_numbers (p + 1) n'
  end.

(** ** Scenario: two projects on one page, an empty second page *)

(** The two projects. *)
Definition project_one : pyval :=
  PDict [("id", PInt 1); ("name", PStr "one");
         ("path_with_namespace", PStr "group/one");
         ("web_url", PStr "https://gitlab.com/group/one")].

Definition project_two : pyval :=
  PDict [("id", PInt 2); ("name", PStr "two");
         ("path_with_namespace", PStr "group/two");
         ("web_url", PStr "https://gitlab.com/group/two")].

(** What the API lists for the first project; the second project cannot
    be read. *)
Definition api_variables : list pyval :=
  [PDict [("key", PStr "B_KEY"); ("value", PStr "s3cret"); ("protected", PBool true)];
   PDict [("key", PStr "A_KEY"); ("value", PStr "hunter2"); ("protected", PBool false);
          ("masked", PBool true); ("environment_scope", PStr "production")]].

(** Page 1 announces a page 2, which is empty. *)
Definition two_pages (req : request) : reply :=
  match req with
  | GET_projects p =>
      if page p =? 1
      then Success (fun k => if (k =? "x-next-page")%string then Some "2"%string else None)
                   (PList [project_one; project_two])
      else Success (fun _ => None) (PList [])
  | GET_variables (PInt 1) => Success (fun _ => None) (PList api_variables)
  | GET_variables _ => Failure
  end.

(** A backend that lists one page and then stops answering. *)
Definition one_page_then_down (req : request) : reply :=
  match req with
  | GET_projects p =>
      if page p =? 1
      then Success (fun k => if (k =? "x-next-page")%string then Some "2"%string else None)
                   (PList [project_one; project_two])
      else Failure
  | GET_variables _ => Failure
  end.

(** A third project, and two backends whose second page lists it and is
    the last one by its header: the header is there and empty, as GitLab
    sends it with the last page, or it is not there.  A request for a
    further page would be answered like the second. *)
Definition project_three : pyval :=
  PDict [("id", PInt 3); ("name", PStr "three");
         ("path_with_namespace", PStr "group/three");
         ("web_url", PStr "https://gitlab.com/group/three")].

Definition empty_next_header (req : request) : reply :=
  match req with
  | GET_projects p =>
      if page p =? 1
      then Success (fun k => if (k =? "x-next-page")%string then Some "2"%string else None)
                   (PList [project_one; project_two])
      else Success (fun k => if (k =? "x-next-page")%string then Some ""%string else None)
                   (PList [project_three])
  | GET_variables _ => Failure
  end.

Definition no_next_header (req : request) : reply :=
  match req with
  | GET_projects p =>
      if page p =? 1
      then Success (fun k => if (k =? "x-next-page")%string then Some "2"%string else None)
                   (PList [project_one; project_two])
      else Success (fun _ => None) (PList [project_three])
  | GET_variables _ => Failure
  end.


(** The report of the audit of [two_pages], and its HTTP calls. *)
Definition two_pages_report : pyval :=
  PDict [("audit_date", PStr "2024-05-01T12:00:00");
         ("total_projects", PInt 2);
         ("projects_with_secrets", PInt 1);
         ("total_secrets", PInt 2);
         ("projects",
          PList [PDict [("id", PInt 1); ("name", PStr "one"); ("path", PStr "group/one");
                        ("web_url", PStr "https://gitlab.com/group/one");
                        ("variables",
                         PList [PDict [("key", PStr "B_KEY"); ("protected", PBool true);
                                       ("masked", PBool false);
                                       ("environment_scope", PStr "*");
                                       ("variable_type", PStr "env_var")];
                                PDict [("key", PStr "A_KEY"); ("protected", PBool false);
                                       ("masked", PBool true);
                                       ("environment_scope", PStr "production");
                                       ("variable_type", PStr "env_var")]])]])].

(** The HTTP calls of that audit, in order. *)
Definition two_pages_calls : list request :=
  [page_request 1; page_request 2; GET_variables (PInt 1); GET_variables (PInt 2)].

(** ** The report and its entries *)

(** [sum(l)]. *)
Definition sum_Z (l : list Z) : Z := fold_right Z.add 0 l.

(** [len(p['variables'])] of a report entry. *)
Definition count_variables (entry : pyval) : Z :=
  match subscript entry "variables" with
  | Ret vs => match py_len vs with Ret n => n | _ => 0 end
  | _ => 0
  end.

(** The report dictionary whose counters agree with its entries. *)
Definition report (now : string) (total : Z) (entries : list pyval) : pyval :=
  PDict [("audit_date", PStr now);
         ("total_projects", PInt total);
         ("projects_with_secrets", PInt (Z.of_nat (List.length entries)));
         ("total_secrets", PInt (sum_Z (map count_variables entries)));
         ("projects", PList entries)].

(** What [default] stands for in [d.get(k, default)]. *)
Definition field (d : list (string * pyval)) (k : string) (default : pyval) : pyval :=
  match lookup k d with
  | Some x => x
  | None => default
  end.

(** The stored record of an API variable object: the five fields, the
    last four with their defaults. *)
Inductive stored_from : pyval -> pyval -> Prop :=
| stored_from_dict d :
    stored_from (PDict d)
      (PDict [("key", field d "key" PNone);
              ("protected", field d "protected" (PBool false));
              ("masked", field d "masked" (PBool false));
              ("environment_scope", field d "environment_scope" (PStr "*"));
              ("variable_type", field d "variable_type" (PStr "env_var"))]).

(** The variables the fetcher hands over for a project. *)
Definition fetched (server : request -> reply) (project : pyval) : pyval :=
  match subscript project "id" with
  | Ret id => reply_body (server (GET_variables id))
  | _ => PList []
  end.

(** The test [if variables:] of the audit on these variables. *)
Definition has_secrets (server : request -> reply) (project : pyval) : bool :=
  truthy (fetched server project).

(** The number of variables fetched for a project. *)
Definition secrets_of (server : request -> reply) (project : pyval) : Z :=
  match py_len (fetched server project) with
  | Ret n => n
  | _ => 0
  end.

(** [entry] is the report entry of [project]: its identity, and the
    records of the variables the API listed for it. *)
Inductive entry_of (server : request -> reply) (project entry : pyval) : Prop :=
| entry_of_intro id name path web_url vars records :
    subscript project "id" = Ret id ->
    subscript project "name" = Ret name ->
    subscript project "path_with_namespace" = Ret path ->
    subscript project "web_url" = Ret web_url ->
    fetched server project = PList vars ->
    vars <> [] ->
    Forall2 stored_from vars records ->
    entry = PDict [("id", id); ("name", name); ("path", path);
                   ("web_url", web_url); ("variables", PList records)] ->
    entry_of server project entry.

(** ** Sorting keys *)

(** Two items in order, an item whose key is in the domain, an item of the
    class of [k]: each item is paired with its key. *)
Definition key_ord (lt : pyval -> pyval -> bool) (a b : pyval * pyval) : Prop :=
  lt (fst b) (fst a) = false.

Definition key_dom (dom : pyval -> Prop) (a : pyval * pyval) : Prop := dom (fst a).

Definition key_same (same : pyval -> pyval -> bool) (k : pyval) (a : pyval * pyval) : bool :=
  same k (fst a).

(** The items of a list, each with its key. *)
Definition tagged (rank : pyval -> pyval) (l : list pyval) : list (pyval * pyval) :=
  map (fun x => (rank x, x)) l.

(** Integer keys and string keys, with their orders. *)
Definition is_int (v : pyval) : Prop := exists n, v = PInt n.

Definition int_lt (a b : pyval) : bool :=
  match a, b with
  | PInt x, PInt y => x <? y
  | _, _ => false
  end.

Definition int_same (k a : pyval) : bool :=
  match k, a with
  | PInt x, PInt y => x =? y
  | _, _ => false
  end.

Definition is_str (v : pyval) : Prop := exists s, v = PStr s.

Definition str_lt (a b : pyval) : bool :=
  match a, b with
  | PStr s, PStr t => String.ltb s t
  | _, _ => false
  end.

Definition str_same (k a : pyval) : bool :=
  match k, a with
  | PStr s, PStr t => (s =? t)%string
  | _, _ => false
  end.

(** ** What the summary prints *)

(** The records and the entries of a report whose variable keys are
    strings. *)
Inductive record_ok : pyval -> Prop :=
| record_ok_intro key protected masked scope type :
    record_ok (PDict [("key", PStr key); ("protected", protected); ("masked", masked);
                      ("environment_scope", scope); ("variable_type", type)]).

Inductive entry_ok : pyval -> Prop :=
| entry_ok_intro id name path web_url records :
    Forall record_ok records ->
    entry_ok (PDict [("id", id); ("name", name); ("path", path);
                     ("web_url", web_url); ("variables", PList records)]).

(** The key of a record, the name of an entry. *)
Definition key_of (record : pyval) : pyval :=
  match subscript record "key" with
  | Ret k => k
  | _ => PNone
  end.

Definition key_str (record : pyval) : string :=
  match key_of record with
  | PStr s => s
  | _ => EmptyString
  end.

Definition name_of (entry : pyval) : pyval :=
  match subscript entry "name" with
  | Ret v => v
  | _ => PNone
  end.

(** The lines a computation prints. *)
Definition lines_of {A : Type} (c : M line A) : list line :=
  match c with
  | Ret (_, w) => w
  | _ => []
  end.

(** The values printed in the lines that open with [prefix]: the project
    names of the headings, the keys of the bullets. *)
Definition printed_after (prefix : string) (lines : list line) : list pyval :=
  flat_map (fun l => match l with
                     | [Text t; Str v] => if (t =? prefix)%string then [v] else []
                     | _ => []
                     end) lines.

Definition printed_projects (lines : list line) : list pyval :=
  printed_after (nl ++ "📁 Project: ") lines.

Definition printed_keys (lines : list line) : list pyval :=
  printed_after "   • " lines.

(** ** Scenarios of the summary *)

(** An entry with two variables of one key in two environments, and a
    report that lists a project with one variable before a project with
    three. *)
Definition same_key_entry : pyval :=
  PDict [("id", PInt 1); ("name", PStr "one"); ("path", PStr "group/one");
         ("web_url", PStr "https://gitlab.com/group/one");
         ("variables",
          PList [PDict [("key", PStr "API_TOKEN"); ("protected", PBool true);
                        ("masked", PBool true); ("environment_scope", PStr "production");
                        ("variable_type", PStr "env_var")];
                 PDict [("key", PStr "API_TOKEN"); ("protected", PBool false);
                        ("masked", PBool true); ("environment_scope", PStr "staging");
                        ("variable_type", PStr "env_var")]])].

Definition plain_record (key : string) : pyval :=
  PDict [("key", PStr key); ("protected", PBool false); ("masked", PBool false);
         ("environment_scope", PStr "*"); ("variable_type", PStr "env_var")].

Definition entry_B : pyval :=
  PDict [("id", PInt 2); ("name", PStr "B"); ("path", PStr "group/b");
         ("web_url", PStr "https://gitlab.com/group/b");
         ("variables", PList [plain_record "ONLY"])].

Definition entry_A : pyval :=
  PDict [("id", PInt 1); ("name", PStr "A"); ("path", PStr "group/a");
         ("web_url", PStr "https://gitlab.com/group/a");
         ("variables", PList [plain_record "C_KEY"; plain_record "A_KEY";
                              plain_record "B_KEY"])].

Definition report_B_then_A : pyval :=
  PDict [("audit_date", PStr "2024-05-01T12:00:00");
         ("total_projects", PInt 2);
         ("projects_with_secrets", PInt 2);
         ("total_secrets", PInt 4);
         ("projects", PList [entry_B; entry_A])].

(** The lines [w] printed before the lines of [c]. *)
Definition prefix_lines {A : Type} (w : list line) (c : M line A) : M line A :=
  match c with
  | Ret (a, w') => Ret (a, w ++ w')
  | Raise e => Raise e
  | OutOfFuel => OutOfFuel
  end.

(** The lines that introduce a project. *)
Definition project_heading (entry : pyval) : list line :=
  [[Text (nl ++ "📁 Project: "); Str (name_of entry)];
   [Text "   Path: "; Str (match subscript entry "path" with Ret v => v | _ => PNone end)];
   [Text "   URL: "; Str (match subscript entry "web_url" with Ret v => v | _ => PNone end)];
   [Text "   Secrets: "; Str (PInt (count_variables entry))];
   [Text ("   " ++ times "-" 76)]].

(** The lines that open the summary. *)
Definition summary_heading (audit_date total with_secrets secrets : pyval) : list line :=
  [[Text (nl ++ times "=" 80)];
   [Text "📊 GITLAB CI/CD VARIABLES AUDIT SUMMARY"];
   [Text (times "=" 80)];
   [Text "Audit Date: "; Str audit_date];
   [Text "Total Projects Scanned: "; Str total];
   [Text "Projects with Secrets: "; Str with_secrets];
   [Text "Total Secrets Found: "; Str secrets];
   [Text (times "=" 80 ++ nl)]].

(** The key functions of the two sorts: [lambda x: x['key']] and
    [lambda x: len(x['variables'])]. *)
Definition by_key (x : pyval) : res pyval := subscript x "key".

Definition by_count (x : pyval) : res pyval :=
  let* vs := subscript x "variables" in
  let* n := py_len vs in
  Ret (PInt n).

(** Keys in strictly ascending order, each below the next. *)
Definition strictly_ascending (keys : list pyval) : Prop :=
  Sorted (fun a b => py_lt a b = Ret true) keys.

(** A backend with one project and the given variables: two variables
    that share a key, then two variables of which the second has no
    key, with the report of its audit. *)
Definition one_project (variables : list pyval) (req : request) : reply :=
  match req with
  | GET_projects _ => Success (fun _ => None) (PList [project_one])
  | GET_variables _ => Success (fun _ => None) (PList variables)
  end.

Definition two_environments : request -> reply :=
  one_project
    [PDict [("key", PStr "API_TOKEN"); ("protected", PBool true); ("masked", PBool true);
            ("environment_scope", PStr "production")];
     PDict [("key", PStr "API_TOKEN"); ("masked", PBool true);
            ("environment_scope", PStr "staging")]].

Definition missing_key : request -> reply :=
  one_project
    [PDict [("key", PStr "API_TOKEN"); ("value", PStr "s3cret")];
     PDict [("value", PStr "hunter2"); ("masked", PBool true)]].

Definition missing_key_report : pyval :=
  PDict [("audit_date", PStr "2024-05-01T12:00:00");
         ("total_projects", PInt 1);
         ("projects_with_secrets", PInt 1);
         ("total_secrets", PInt 2);
         ("projects",
          PList [PDict [("id", PInt 1); ("name", PStr "one"); ("path", PStr "group/one");
                        ("web_url", PStr "https://gitlab.com/group/one");
                        ("variables",
                         PList [PDict [("key", PStr "API_TOKEN"); ("protected", PBool false);
                                       ("masked", PBool false);
                                       ("environment_scope", PStr "*");
                                       ("variable_type", PStr "env_var")];
                                PDict [("key", PNone); ("protected", PBool false);
                                       ("masked", PBool true);
                                       ("environment_scope", PStr "*");
                                       ("variable_type", PStr "env_var")]])]])].

(** The records the audit stores, whatever their key, and the entries
    made of them. *)
Inductive five_fields : pyval -> Prop :=
| five_fields_intro key protected masked scope type :
    five_fields (PDict [("key", key); ("protected", protected); ("masked", masked);
                        ("environment_scope", scope); ("variable_type", type)]).

Inductive entry_shape : pyval -> Prop :=
| entry_shape_intro id name path web_url records :
    Forall five_fields records ->
    entry_shape (PDict [("id", id); ("name", name); ("path", path);
                        ("web_url", web_url); ("variables", PList records)]).

(** An entry with at least two variables, one of them without a key. *)
Inductive keyless_entry : pyval -> Prop :=
| keyless_entry_intro id name path web_url records :
    (2 <= List.length records)%nat ->
    Exists (fun r => key_of r = PNone) records ->
    keyless_entry (PDict [("id", id); ("name", name); ("path", path);
                          ("web_url", web_url); ("variables", PList records)]).

(** ** Traces *)

(** The events [w] recorded before those of [c]. *)
Definition after_events {E A : Type} (w : list E) (c : M E A) : M E A :=
  match c with
  | Ret (a, w') => Ret (a, w ++ w')
  | Raise e => Raise e
  | OutOfFuel => OutOfFuel
  end.

(** The page [p + k] is non-empty, yields [items_of k] and announces a
    next page, for every [k] below [n]. *)
Definition pages_continue (server : request -> reply) (p : Z) (n : nat)
                          (items_of : nat -> list pyval) : Prop :=
  forall k, (k < n)%nat ->
    exists headers body,
      server (page_request (p + Z.of_nat k)) = Success headers body /\
      truthy body = true /\ py_iter body = Ret (items_of k) /\
      more_pages headers = true.

(** ** Scenarios of the enumeration *)

(** A backend whose every page lists the same project and announces a
    next page; one whose second page is the number 404. *)
Definition endless (req : request) : reply :=
  match req with
  | GET_projects _ =>
      Success (fun k => if (k =? "x-next-page")%string then Some "more"%string else None)
              (PList [project_one])
  | GET_variables _ => Failure
  end.

Definition number_page (req : request) : reply :=
  match req with
  | GET_projects p =>
      if page p =? 1
      then Success (fun k => if (k =? "x-next-page")%string then Some "2"%string else None)
                   (PList [project_one; project_two])
      else Success (fun _ => None) (PInt 404)
  | GET_variables _ => Failure
  end.

(** ** Projects and variable lists as the API documents them *)

(** [project['id']], or [None] when there is none. *)
Definition id_of (project : pyval) : pyval :=
  match subscript project "id" with
  | Ret id => id
  | _ => PNone
  end.

(** The project has the two fields every iteration of the audit reads,
    and the two more it reads when the project has variables. *)
Definition has_identity (project : pyval) : Prop :=
  (exists id, subscript project "id" = Ret id) /\
  (exists path, subscript project "path_with_namespace" = Ret path).

Definition has_details (project : pyval) : Prop :=
  (exists name, subscript project "name" = Ret name) /\
  (exists web_url, subscript project "web_url" = Ret web_url).

(** A JSON array of objects. *)
Definition array_of_objects (v : pyval) : Prop :=
  exists l, v = PList l /\ Forall (fun x => exists d, x = PDict d) l.

(** The five keys the audit reads in a variable object. *)
Definition audited_keys : list string :=
  ["key"; "protected"; "masked"; "environment_scope"; "variable_type"]%string.

(** Two variable objects with the same five fields, two bodies that list
    such objects one for one, two backends that answer alike but for the
    other fields of the variable objects. *)
Definition same_fields (x y : pyval) : Prop :=
  x = y \/
  exists d1 d2, x = PDict d1 /\ y = PDict d2 /\
                forall k, In k audited_keys -> lookup k d1 = lookup k d2.

Definition same_body (b1 b2 : pyval) : Prop :=
  b1 = b2 \/ exists l1 l2, b1 = PList l1 /\ b2 = PList l2 /\ Forall2 same_fields l1 l2.

Definition same_but_other_fields (s1 s2 : request -> reply) : Prop :=
  (forall p, s1 (GET_projects p) = s2 (GET_projects p)) /\
  (forall id, same_body (reply_body (s1 (GET_variables id)))
                        (reply_body (s2 (GET_variables id)))).

(** [two_pages] with other secret values and one more field. *)
Definition two_pages_other_values (req : request) : reply :=
  match req with
  | GET_variables (PInt 1) =>
      Success (fun _ => None)
        (PList [PDict [("key", PStr "B_KEY"); ("value", PStr "changed");
                       ("protected", PBool true); ("raw", PBool true)];
                PDict [("key", PStr "A_KEY"); ("protected", PBool false);
                       ("masked", PBool true); ("environment_scope", PStr "production")]])
  | _ => two_pages req
  end.

(** A backend that answers the variables of a project with an error
    object and status 200. *)
Definition error_object (req : request) : reply :=
  match req with
  | GET_projects _ => Success (fun _ => None) (PList [project_one])
  | GET_variables _ => Success (fun _ => None) (PDict [("message", PStr "403 Forbidden")])
  end.

(** An enumeration whose second project has no [id]. *)
Definition project_without_id (req : request) : reply :=
  match req with
  | GET_projects _ =>
      Success (fun _ => None) (PList [project_one; PDict [("name", PStr "two")]])
  | GET_variables _ => Failure
  end.

(** A project the audit can process: its identity, and, unless its
    fetch comes back empty, an array of objects and its details. *)
Definition auditable (server : request -> reply) (project : pyval) : Prop :=
  has_identity project /\
  (has_secrets server project = false \/
   (array_of_objects (fetched server project) /\ has_details project)).

(** ** Variables bodies that are not arrays of objects *)

Definition not_object (x : pyval) : Prop := forall d, x <> PDict d.

(** A non-empty body that is no array of objects, with the exception the
    audit stops on: a number or [true] has no length; the keys of an
    object, the characters of a string and the other items of an array
    have no [get]. *)
Inductive malformed : pyval -> exn -> Prop :=
| malformed_number m : m <> 0 -> malformed (PInt m) TypeError
| malformed_true : malformed (PBool true) TypeError
| malformed_object d : d <> [] -> malformed (PDict d) AttributeError
| malformed_string s : s <> ""%string -> malformed (PStr s) AttributeError
| malformed_array l : Exists not_object l -> malformed (PList l) AttributeError.

(** The project is an object without the field [k]. *)
Definition lacks (project : pyval) (k : string) : Prop :=
  exists d, project = PDict d /\ lookup k d = None.

(** ** The summary of an audit *)

(** A variable object of the API whose [key] is a string. *)
Definition has_string_key (x : pyval) : Prop :=
  exists d s, x = PDict d /\ lookup "key" d = Some (PStr s).

(** The message of a report without entries. *)
Definition no_secrets_line : line :=
  [Text "No secrets found in any accessible projects."].

(** The annotation of a variable: [Protected] if protected, [Masked] if
    masked, both joined by a bar, or [No flags]. *)
Definition flag_annotation (protected masked : bool) : string :=
  match protected, masked with
  | true, true => "🔒 Protected | 🎭 Masked"
  | true, false => "🔒 Protected"
  | false, true => "🎭 Masked"
  | false, false => "No flags"
  end.

(** ** Runs of the script *)

(** An event that neither reaches the network nor writes a file. *)
Definition quiet (ev : event) : bool :=
  match ev with
  | Requested _ _ _ | Saved _ _ => false
  | Asked _ | Printed _ => true
  end.

(** Every character of [s] passes the test. *)
Fixpoint all_chars (chars : ascii -> bool) (s : string) : bool :=
  match s with
  | EmptyString => true
  | String c s' => chars c && all_chars chars s'
  end.

(** [n] slashes; the last character of a string. *)
Fixpoint slashes (n : nat) : string :=
  match n with
  | O => EmptyString
  | S n' => String "/" (slashes n')
  end.

Fixpoint last_char (s : string) : option ascii :=
  match s with
  | EmptyString => None
  | String c EmptyString => Some c
  | String _ s' => last_char s'
  end.

(** The URL [main] hands to the auditor: the second argument of the
    command line, or the public instance. *)
Definition url_argument (rest : list string) : string :=
  match rest with
  | u :: _ => u
  | [] => "https://gitlab.com"%string
  end.

(** A command line with a token, for the backend [missing_key]. *)
Definition token_given : list string := ["gitlab.py"; "glpat-x"]%string.

Definition missing_key_network : network := fun _ _ => missing_key.

(** * Properties *)

(** ** Reasoning about outcomes *)

Lemma rbind_ret_inv {A B : Type} (c : res A) (k : A -> res B) b :
  rbind c k = Ret b -> exists a, c = Ret a /\ k a = Ret b.
Proof.
  destruct c; simpl; try discriminate. intros H. exists a. split; [reflexivity | exact H].
Qed.

Lemma bind_ret_inv {E A B : Type} (c : M E A) (k : A -> M E B) b w :
  bind c k = Ret (b, w) ->
  exists a w1 w2, c = Ret (a, w1) /\ k a = Ret (b, w2) /\ w = w1 ++ w2.
Proof.
  unfold bind. destruct c as [[a w1]| |]; try discriminate.
  destruct (k a) as [[b' w2]| |] eqn:Hk; try discriminate.
  intros H. injection H as <- <-. exists a, w1, w2. repeat split. exact Hk.
Qed.

Lemma lift_ret_inv {E A : Type} (c : res A) a (w : list E) :
  lift c = Ret (a, w) -> c = Ret a /\ w = [].
Proof.
  unfold lift. destruct c; try discriminate.
  intros H. injection H as <- <-. split; reflexivity.
Qed.

Lemma bind_lift_ret_inv {E A B : Type} (c : res A) (k : A -> M E B) b w :
  bind (lift c) k = Ret (b, w) -> exists a, c = Ret a /\ k a = Ret (b, w).
Proof.
  intros H. apply bind_ret_inv in H. destruct H as (a & w1 & w2 & Hc & Hk & ->).
  apply lift_ret_inv in Hc. destruct Hc as (-> & ->). exists a. split; [reflexivity | exact Hk].
Qed.

Lemma mapM_length {A B : Type} (f : A -> res B) l :
  forall l', mapM f l = Ret l' -> List.length l' = List.length l.
Proof.
  induction l as [|x l IH]; intros l' H; cbn in H.
  - injection H as <-. reflexivity.
  - apply rbind_ret_inv in H. destruct H as (y & _ & H).
    apply rbind_ret_inv in H. destruct H as (ys & Hys & H).
    injection H as <-. cbn. f_equal. apply IH, Hys.
Qed.

Lemma Forall2_In_r {A B : Type} (R : A -> B -> Prop) l l' :
  Forall2 R l l' -> forall y, In y l' -> exists x, In x l /\ R x y.
Proof.
  induction 1 as [|x y l l' Hxy _ IH]; intros z Hz; [destruct Hz|].
  destruct Hz as [<- | Hz].
  - exists x. split; [left; reflexivity | exact Hxy].
  - destruct (IH z Hz) as (x' & Hin & Hr). exists x'. split; [right; exact Hin | exact Hr].
Qed.

Lemma flat_map_seq_shift {A : Type} (f : nat -> list A) n :
  forall start,
    flat_map f (seq (S start) n) = flat_map (fun k => f (S k)) (seq start n).
Proof.
  induction n as [|n IH]; intros start; cbn [seq flat_map]; [reflexivity|].
  rewrite IH. reflexivity.
Qed.

Lemma sum_Z_app l1 l2 : sum_Z (l1 ++ l2) = sum_Z l1 + sum_Z l2.
Proof. unfold sum_Z. induction l1 as [|x l1 IH]; cbn; [reflexivity | rewrite IH; lia]. Qed.

(** ** The project enumerator and the variable fetcher *)

(** The test of the loop on the header is the rule of the
    specification: present and not empty. *)
Lemma more_pages_announces headers :
  more_pages headers = true <-> announces_next headers.
Proof.
  unfold more_pages. split.
  - destruct (headers "x-next-page") as [v|] eqn:Hv; [|discriminate].
    intros H. apply (announces_next_intro headers v Hv).
    intros ->. discriminate.
  - intros [v Hv Hne]. rewrite Hv.
    destruct (String.eqb_spec v ""); [contradiction|reflexivity].
Qed.

Lemma more_pages_lacks headers :
  more_pages headers = false <-> lacks_next headers.
Proof.
  unfold more_pages, lacks_next. split.
  - destruct (headers "x-next-page") as [v|]; [|left; reflexivity].
    destruct (String.eqb_spec v "") as [->|]; [right; reflexivity|discriminate].
  - intros [-> | ->]; reflexivity.
Qed.

Lemma wants_next_goes_on r : wants_next r = true <-> goes_on r.
Proof.
  split.
  - destruct r as [|headers body]; [discriminate|]. cbn [wants_next].
    intros H. apply andb_true_iff in H. destruct H as (Hb & Hm).
    constructor; [exact Hb | apply more_pages_announces, Hm].
  - intros [headers body Hb Hm]. cbn [wants_next].
    apply more_pages_announces in Hm. rewrite Hb, Hm. reflexivity.
Qed.

Lemma wants_next_stops r : wants_next r = false <-> stops r.
Proof.
  split.
  - destruct r as [|headers body]; [constructor|]. cbn [wants_next].
    intros H. apply andb_false_iff in H. destruct H as [Hb | Hm].
    + apply stops_empty, Hb.
    + apply stops_unannounced, more_pages_lacks, Hm.
  - intros [|headers body Hb|headers body Hm]; cbn [wants_next].
    + reflexivity.
    + rewrite Hb. reflexivity.
    + apply more_pages_lacks in Hm. rewrite Hm. apply andb_false_r.
Qed.

Section Enumerator.

Variable server : request -> reply.

Lemma get_project_variables_returns project_id :
  get_project_variables server project_id =
  Ret (reply_body (server (GET_variables project_id)), [GET_variables project_id]).
Proof.
  unfold get_project_variables, bind, requests_get.
  destruct (server (GET_variables project_id)); reflexivity.
Qed.

(** One iteration of the loop. *)
Lemma fetch_pages_step fuel acc p :
  fetch_pages server (S fuel) acc p =
  match server (page_request p) with
  | Failure => Ret (acc, [page_request p])
  | Success headers body =>
      if negb (truthy body) then Ret (acc, [page_request p])
      else match py_iter body with
           | Ret items =>
               if negb (more_pages headers) then Ret (acc ++ items, [page_request p])
               else match fetch_pages server fuel (acc ++ items) (p + 1) with
                    | Ret (projects, calls) => Ret (projects, page_request p :: calls)
                    | Raise e => Raise e
                    | OutOfFuel => OutOfFuel
                    end
           | Raise e => Raise e
           | OutOfFuel => OutOfFuel
           end
  end.
Proof.
  cbn [fetch_pages]. unfold bind, requests_get, page_request.
  destruct (server _) as [|headers body]; [reflexivity|].
  destruct (truthy body); cbn [negb]; [|reflexivity].
  unfold lift. destruct (py_iter body); try reflexivity.
  destruct (more_pages headers); cbn [negb]; [|reflexivity].
  destruct (fetch_pages server fuel _ _) as [[projects calls]| |]; reflexivity.
Qed.

Lemma fetch_pages_trace fuel :
  forall acc p projects calls,
    fetch_pages server fuel acc p = Ret (projects, calls) ->
    exists n : nat,
      calls = map page_request (page_numbers p (S n)) /\
      (forall k, (k < n)%nat ->
                 wants_next (server (page_request (p + Z.of_nat k))) = true) /\
      wants_next (server (page_request (p + Z.of_nat n))) = false.
Proof.
  induction fuel as [|fuel IH]; intros acc p projects calls H.
  - discriminate H.
  - rewrite fetch_pages_step in H.
    assert (Hlast : forall a, Ret (a, [page_request p]) = Ret (projects, calls) ->
                    wants_next (server (page_request p)) = false ->
                    exists n : nat,
                      calls = map page_request (page_numbers p (S n)) /\
                      (forall k, (k < n)%nat ->
                                 wants_next (server (page_request (p + Z.of_nat k))) = true) /\
                      wants_next (server (page_request (p + Z.of_nat n))) = false).
    { intros a E W. injection E as _ <-. exists O. cbn.
      rewrite Z.add_0_r. repeat split; [|exact W]. intros k Hk. lia. }
    destruct (server (page_request p)) as [|headers body] eqn:Hs.
    + eapply Hlast; [exact H | reflexivity].
    + destruct (truthy body) eqn:Hb; cbn [negb] in H.
      2:{ eapply Hlast; [exact H | cbn; rewrite Hb; reflexivity]. }
      destruct (py_iter body) as [items| |]; try discriminate H.
      destruct (more_pages headers) eqn:Hm; cbn [negb] in H.
      2:{ eapply Hlast; [exact H | cbn; rewrite Hb, Hm; reflexivity]. }
      destruct (fetch_pages server fuel (acc ++ items) (p + 1))
        as [[projects' calls']| |] eqn:Hrec; try discriminate H.
      injection H as -> <-.
      apply IH in Hrec. destruct Hrec as (n & Hcalls & Hbefore & Hstop).
      exists (S n). repeat split.
      * rewrite Hcalls. reflexivity.
      * intros k Hk. destruct k as [|k].
        -- rewrite Z.add_0_r, Hs. cbn. rewrite Hb, Hm. reflexivity.
        -- replace (p + Z.of_nat (S k)) with (p + 1 + Z.of_nat k) by lia.
           apply Hbefore. lia.
      * replace (p + Z.of_nat (S n)) with (p + 1 + Z.of_nat n) by lia. exact Hstop.
Qed.

(** The loop ends within [n + 1] iterations when page [p + n] does not
    call for a next one. *)
Lemma fetch_pages_terminates n :
  forall fuel acc p,
    wants_next (server (page_request (p + Z.of_nat n))) = false ->
    (n < fuel)%nat ->
    fetch_pages server fuel acc p <> OutOfFuel.
Proof.
  induction n as [|n IH]; intros fuel acc p Hstop Hfuel;
    (destruct fuel as [|fuel]; [lia|]); rewrite fetch_pages_step;
    (destruct (server (page_request p)) as [|headers body] eqn:Hs; [discriminate|]);
    (destruct (truthy body) eqn:Hb; cbn [negb]; [|discriminate]);
    (destruct (py_iter body) eqn:Hit; [| discriminate | destruct body; discriminate]).
  - rewrite Z.add_0_r, Hs in Hstop. cbn in Hstop. rewrite Hb in Hstop.
    cbn in Hstop. rewrite Hstop. discriminate.
  - destruct (more_pages headers); cbn [negb]; [|discriminate].
    specialize (IH fuel (acc ++ a) (p + 1)).
    destruct (fetch_pages server fuel (acc ++ a) (p + 1)) as [[projects calls]| |];
      try discriminate.
    exfalso. apply IH; [|lia|reflexivity].
    replace (p + 1 + Z.of_nat n) with (p + Z.of_nat (S n)) by lia. exact Hstop.
Qed.




End Enumerator.

(** ** The audit loop *)

Lemma py_get_dict d k default :
  py_get (PDict d) k default = Ret (field d k default).
Proof. unfold py_get, field. destruct (lookup k d); reflexivity. Qed.

Lemma variable_record_dict d :
  variable_record (PDict d) =
  Ret (PDict [("key", field d "key" PNone);
              ("protected", field d "protected" (PBool false));
              ("masked", field d "masked" (PBool false));
              ("environment_scope", field d "environment_scope" (PStr "*"));
              ("variable_type", field d "variable_type" (PStr "env_var"))]).
Proof. unfold variable_record. rewrite !py_get_dict. reflexivity. Qed.

Lemma variable_record_stored var r :
  variable_record var = Ret r -> stored_from var r.
Proof.
  destruct var; try discriminate. rewrite variable_record_dict.
  intros H. injection H as <-. constructor.
Qed.

Lemma mapM_variable_record vars :
  forall records,
    mapM variable_record vars = Ret records -> Forall2 stored_from vars records.
Proof.
  induction vars as [|var vars IH]; intros records H; cbn in H.
  - injection H as <-. constructor.
  - apply rbind_ret_inv in H. destruct H as (r & Hr & H).
    apply rbind_ret_inv in H. destruct H as (rs & Hrs & H).
    injection H as <-. constructor; [apply variable_record_stored, Hr | apply IH, Hrs].
Qed.

(** Only a JSON array of objects passes the inner loop of the audit. *)
Lemma records_need_array v vars records :
  truthy v = true ->
  py_iter v = Ret vars -> mapM variable_record vars = Ret records -> v = PList vars.
Proof.
  destruct v as [| | |s|l|d]; try discriminate; cbn; intros Ht H1 H2.
  - injection H1 as <-. destruct s as [|c s]; discriminate.
  - congruence.
  - injection H1 as <-. destruct d as [|[k x] d]; discriminate.
Qed.

Lemma stored_from_keys var record :
  stored_from var record ->
  exists items,
    record = PDict items /\
    map fst items = ["key"; "protected"; "masked"; "environment_scope"; "variable_type"]%string.
Proof. intros [d]. eexists. split; reflexivity. Qed.

Lemma entry_of_count server project e :
  entry_of server project e -> count_variables e = secrets_of server project.
Proof.
  intros [id name path web_url vars records _ _ _ _ Hf _ Hrec ->].
  unfold secrets_of. rewrite Hf. cbn.
  apply Forall2_length in Hrec. rewrite Hrec. reflexivity.
Qed.

Lemma entries_count server projects entries :
  Forall2 (entry_of server) projects entries ->
  map count_variables entries = map (secrets_of server) projects.
Proof.
  induction 1 as [|p e ps es Hpe _ IH]; cbn; [reflexivity|].
  rewrite IH, (entry_of_count _ _ _ Hpe). reflexivity.
Qed.

Section Audit.

Variable server : request -> reply.

(** The loop body keeps the report consistent: it leaves it alone, or
    appends the entry of the project. *)
Lemma audit_project_returns project now total entries r calls :
  audit_project server project (report now total entries) = Ret (r, calls) ->
  (has_secrets server project = false /\ r = report now total entries) \/
  (has_secrets server project = true /\
   exists e, entry_of server project e /\ r = report now total (entries ++ [e])).
Proof.
  unfold audit_project. intros H.
  apply bind_lift_ret_inv in H. destruct H as (id & Hid & H).
  apply bind_lift_ret_inv in H. destruct H as (path & Hpath & H).
  apply bind_ret_inv in H. destruct H as (variables & w1 & w2 & Hvars & H & ->).
  rewrite get_project_variables_returns in Hvars. injection Hvars as <- <-.
  assert (Hf : fetched server project = reply_body (server (GET_variables id)))
    by (unfold fetched; rewrite Hid; reflexivity).
  unfold has_secrets. rewrite Hf.
  set (v := reply_body (server (GET_variables id))) in *.
  destruct (truthy v) eqn:Htruthy.
  - right. split; [reflexivity|].
    apply bind_lift_ret_inv in H. destruct H as (n & Hn & H).
    apply bind_lift_ret_inv in H. destruct H as (r1 & Hr1 & H).
    cbn in Hr1. injection Hr1 as <-.
    apply bind_lift_ret_inv in H. destruct H as (r2 & Hr2 & H).
    cbn in Hr2. injection Hr2 as <-.
    apply bind_lift_ret_inv in H. destruct H as (name & Hname & H).
    apply bind_lift_ret_inv in H. destruct H as (web_url & Hurl & H).
    apply bind_lift_ret_inv in H. destruct H as (vars & Hiter & H).
    apply bind_lift_ret_inv in H. destruct H as (records & Hrec & H).
    apply lift_ret_inv in H. destruct H as (H & _).
    cbn in H. injection H as <-.
    pose proof (records_need_array _ _ _ Htruthy Hiter Hrec) as Hlist.
    rewrite Hlist in Hn, Htruthy. cbn in Hn. injection Hn as <-.
    eexists. split.
    + econstructor; try eassumption; try reflexivity.
      * rewrite Hf. exact Hlist.
      * intros ->. discriminate Htruthy.
      * apply mapM_variable_record, Hrec.
    + unfold report. rewrite length_app, map_app, sum_Z_app. cbn.
      rewrite (mapM_length _ _ _ Hrec).
      repeat f_equal; lia.
  - left. split; [reflexivity|]. injection H as <- _. reflexivity.
Qed.

Lemma audit_loop_returns projects :
  forall now total entries r calls,
    for_each (audit_project server) projects (report now total entries) = Ret (r, calls) ->
    exists new,
      r = report now total (entries ++ new) /\
      Forall2 (entry_of server) (filter (has_secrets server) projects) new.
Proof.
  induction projects as [|project projects IH]; intros now total entries r calls H;
    cbn [for_each] in H.
  - injection H as <- _. exists []. rewrite app_nil_r.
    split; [reflexivity | constructor].
  - apply bind_ret_inv in H. destruct H as (r1 & w1 & w2 & Hstep & H & _).
    apply audit_project_returns in Hstep. cbn [filter].
    destruct Hstep as [(Hno & ->) | (Hyes & e & He & ->)].
    + rewrite Hno. apply IH in H. exact H.
    + rewrite Hyes. apply IH in H. destruct H as (new & -> & Hnew).
      exists (e :: new). rewrite <- app_assoc. split; [reflexivity|].
      constructor; assumption.
Qed.

(** Every returned report is [report] over the entries of the projects
    that have variables, in the order of the enumeration. *)
Lemma audit_secrets_returns fuel now r calls :
  audit_secrets server fuel now = Ret (r, calls) ->
  exists projects calls1 entries,
    get_all_projects server fuel = Ret (projects, calls1) /\
    r = report now (Z.of_nat (List.length projects)) entries /\
    Forall2 (entry_of server) (filter (has_secrets server) projects) entries.
Proof.
  unfold audit_secrets. intros H.
  apply bind_ret_inv in H. destruct H as (projects & w1 & w2 & Hprojects & H & _).
  change (PDict _) with (report now (Z.of_nat (List.length projects)) []) in H.
  apply audit_loop_returns in H. destruct H as (entries & -> & Hentries).
  exists projects, w1, entries. repeat split; assumption.
Qed.

End Audit.

(** ** The claims on the enumerator and the fetcher *)


(** C3: the enumeration asks for the pages 1, 2, ... with page size 100,
    one HTTP call each, and continues exactly while the page is non-empty
    and its [x-next-page] header is present and not empty: every page but
    the last one asked for was such a page, and the last one was a failed
    request, an empty page, or a page whose header is absent or empty;
    the loop ends at the first such page.  On the two-page backend it
    returns the 2 projects after exactly 2 calls; a non-empty second page
    whose header is empty, or absent, is the last page asked for and its
    project is returned. *)
Theorem get_all_projects_pagination :
  (forall server fuel projects calls,
      get_all_projects server fuel = Ret (projects, calls) ->
      exists n : nat,
        calls = map page_request (page_numbers 1 (S n)) /\
        (forall k, (k < n)%nat -> goes_on (server (page_request (1 + Z.of_nat k)))) /\
        stops (server (page_request (1 + Z.of_nat n)))) /\
  (forall server n fuel,
      stops (server (page_request (1 + Z.of_nat n))) ->
      (n < fuel)%nat ->
      get_all_projects server fuel <> OutOfFuel) /\
  (forall fuel,
      get_all_projects two_pages (S (S fuel)) =
      Ret ([project_one; project_two], [page_request 1; page_request 2])) /\
  (forall fuel,
      get_all_projects empty_next_header (S (S fuel)) =
      Ret ([project_one; project_two; project_three], [page_request 1; page_request 2])) /\
  (forall fuel,
      get_all_projects no_next_header (S (S fuel)) =
      Ret ([project_one; project_two; project_three], [page_request 1; page_request 2])).
Proof.
  split; [|split; [|split; [|split]]].
  - intros server fuel projects calls H.
    destruct (fetch_pages_trace server fuel [] 1 projects calls H)
      as (n & Hcalls & Hbefore & Hlast).
    exists n. split; [exact Hcalls|]. split.
    + intros k Hk. apply wants_next_goes_on, Hbefore, Hk.
    + apply wants_next_stops, Hlast.
  - intros server n fuel Hstop Hfuel.
    apply fetch_pages_terminates with (n := n); [|exact Hfuel].
    apply wants_next_stops, Hstop.
  - intros fuel. reflexivity.
  - intros fuel. reflexivity.
  - intros fuel. reflexivity.
Qed.

Lemma get_all_projects_pagination_witness :
  exists n : nat,
    [page_request 1; page_request 2] = map page_request (page_numbers 1 (S n)) /\
    (forall k, (k < n)%nat ->
               goes_on (empty_next_header (page_request (1 + Z.of_nat k)))) /\
    stops (empty_next_header (page_request (1 + Z.of_nat n))).
Proof.
  exact (proj1 get_all_projects_pagination empty_next_header 2%nat
               [project_one; project_two; project_three]
               [page_request 1; page_request 2] eq_refl).
Defined.




(** ** The claims on the report *)

(** C1: every report [audit_secrets] returns is the dictionary of its five
    fields in which [total_secrets] is the sum of the lengths of the
    entries' [variables], [projects_with_secrets] is the number of entries,
    and [projects_with_secrets <= total_projects]. *)
Theorem audit_report_invariant :
  forall server fuel now r calls,
    audit_secrets server fuel now = Ret (r, calls) ->
    exists (total : Z) (entries : list pyval),
      r = PDict [("audit_date", PStr now);
                 ("total_projects", PInt total);
                 ("projects_with_secrets", PInt (Z.of_nat (List.length entries)));
                 ("total_secrets", PInt (sum_Z (map count_variables entries)));
                 ("projects", PList entries)] /\
      Z.of_nat (List.length entries) <= total.
Proof.
  intros server fuel now r calls H.
  apply audit_secrets_returns in H.
  destruct H as (projects & calls1 & entries & _ & -> & Hentries).
  exists (Z.of_nat (List.length projects)), entries. split; [reflexivity|].
  apply Forall2_length in Hentries. rewrite <- Hentries.
  pose proof (filter_length_le (has_secrets server) projects). lia.
Qed.

Lemma audit_report_invariant_witness :
  exists (total : Z) (entries : list pyval),
    two_pages_report =
    PDict [("audit_date", PStr "2024-05-01T12:00:00");
           ("total_projects", PInt total);
           ("projects_with_secrets", PInt (Z.of_nat (List.length entries)));
           ("total_secrets", PInt (sum_Z (map count_variables entries)));
           ("projects", PList entries)] /\
    Z.of_nat (List.length entries) <= total.
Proof.
  apply (audit_report_invariant two_pages 2%nat "2024-05-01T12:00:00"
                                two_pages_report two_pages_calls).
  vm_compute. reflexivity.
Defined.

(** C2: a project whose fetch comes back empty (a failed request
    included) leaves the report as it was; it counts in
    [total_projects]; the entries of the report are those of the projects
    with a non-empty fetch, in order, none of them carries its id, and
    the two counters count those projects and their variables only. *)
Theorem audit_skips_projects_without_variables :
  (forall server X id path results,
      subscript X "id" = Ret id ->
      subscript X "path_with_namespace" = Ret path ->
      truthy (reply_body (server (GET_variables id))) = false ->
      audit_project server X results = Ret (results, [GET_variables id])) /\
  (forall server fuel now enumeration calls1 r calls,
      get_all_projects server fuel = Ret (enumeration, calls1) ->
      audit_secrets server fuel now = Ret (r, calls) ->
      forall X,
        In X enumeration ->
        has_secrets server X = false ->
        exists entries,
          r = report now (Z.of_nat (List.length enumeration)) entries /\
          Forall2 (entry_of server) (filter (has_secrets server) enumeration) entries /\
          ~ In X (filter (has_secrets server) enumeration) /\
          (forall e, In e entries -> subscript e "id" <> subscript X "id") /\
          List.length entries = List.length (filter (has_secrets server) enumeration) /\
          sum_Z (map count_variables entries) =
          sum_Z (map (secrets_of server) (filter (has_secrets server) enumeration))).
Proof.
  split.
  - intros server X id path results Hid Hpath Hempty.
    unfold audit_project, bind, lift. rewrite Hid, Hpath.
    rewrite get_project_variables_returns, Hempty. reflexivity.
  - intros server fuel now enumeration calls1 r calls Henum H X HX Hempty.
    apply audit_secrets_returns in H.
    destruct H as (projects & calls2 & entries & Hprojects & -> & Hentries).
    rewrite Henum in Hprojects. injection Hprojects as <- <-.
    exists entries. repeat split.
    + exact Hentries.
    + rewrite filter_In. intros [_ Hyes]. congruence.
    + intros e He Hsame.
      destruct (Forall2_In_r _ _ _ Hentries e He) as (p & Hp & Hpe).
      apply filter_In in Hp. destruct Hp as [_ Hyes].
      destruct Hpe as [id name path web_url vars records Hid _ _ _ _ _ _ ->].
      cbn in Hsame. unfold has_secrets, fetched in Hyes, Hempty.
      rewrite Hid in Hyes. rewrite <- Hsame in Hempty. congruence.
    + symmetry. apply (Forall2_length Hentries).
    + rewrite (entries_count _ _ _ Hentries). reflexivity.
Qed.

Lemma audit_skips_projects_without_variables_witness :
  exists entries,
    two_pages_report = report "2024-05-01T12:00:00" (Z.of_nat 2) entries /\
    Forall2 (entry_of two_pages)
            (filter (has_secrets two_pages) [project_one; project_two]) entries /\
    ~ In project_two (filter (has_secrets two_pages) [project_one; project_two]) /\
    (forall e, In e entries -> subscript e "id" <> subscript project_two "id") /\
    List.length entries =
    List.length (filter (has_secrets two_pages) [project_one; project_two]) /\
    sum_Z (map count_variables entries) =
    sum_Z (map (secrets_of two_pages)
               (filter (has_secrets two_pages) [project_one; project_two])).
Proof.
  apply (proj2 audit_skips_projects_without_variables two_pages 2%nat
               "2024-05-01T12:00:00" [project_one; project_two]
               [page_request 1; page_request 2] two_pages_report two_pages_calls).
  - reflexivity.
  - vm_compute. reflexivity.
  - right. left. reflexivity.
  - reflexivity.
Defined.

(** C8: the record built for a variable object of the API has exactly the
    fields [key], [protected], [masked], [environment_scope] and
    [variable_type], each taken from the object, the last four replaced by
    [False], [False], ["*"] and ["env_var"] when the object lacks them;
    and in every returned report the [variables] of an entry are these
    records of the objects the API listed for the entry's project, in
    order, so that no other field of an object (its [value]) is kept. *)
Theorem variable_record_fields :
  (forall d,
      variable_record (PDict d) =
      Ret (PDict [("key", field d "key" PNone);
                  ("protected", field d "protected" (PBool false));
                  ("masked", field d "masked" (PBool false));
                  ("environment_scope", field d "environment_scope" (PStr "*"));
                  ("variable_type", field d "variable_type" (PStr "env_var"))])) /\
  (forall server fuel now r calls,
      audit_secrets server fuel now = Ret (r, calls) ->
      exists entries,
        subscript r "projects" = Ret (PList entries) /\
        forall e, In e entries ->
          exists id headers vars records,
            subscript e "id" = Ret id /\
            server (GET_variables id) = Success headers (PList vars) /\
            subscript e "variables" = Ret (PList records) /\
            Forall2 stored_from vars records /\
            forall record, In record records ->
              exists items,
                record = PDict items /\
                map fst items =
                ["key"; "protected"; "masked"; "environment_scope"; "variable_type"]%string).
Proof.
  split; [exact variable_record_dict|].
  intros server fuel now r calls H.
  apply audit_secrets_returns in H.
  destruct H as (projects & calls1 & entries & _ & -> & Hentries).
  exists entries. split; [reflexivity|].
  intros e He.
  destruct (Forall2_In_r _ _ _ Hentries e He) as (p & _ & Hpe).
  destruct Hpe as [id name path web_url vars records Hid _ _ _ Hf Hne Hrec ->].
  unfold fetched in Hf. rewrite Hid in Hf.
  destruct (server (GET_variables id)) as [|headers body] eqn:Hs; cbn in Hf.
  - injection Hf as <-. contradiction Hne. reflexivity.
  - subst body. exists id, headers, vars, records. repeat split; try assumption.
    intros record Hin.
    destruct (Forall2_In_r _ _ _ Hrec record Hin) as (var & _ & Hvar).
    eapply stored_from_keys, Hvar.
Qed.

Lemma variable_record_fields_witness :
  exists entries,
    subscript two_pages_report "projects" = Ret (PList entries) /\
    forall e, In e entries ->
      exists id headers vars records,
        subscript e "id" = Ret id /\
        two_pages (GET_variables id) = Success headers (PList vars) /\
        subscript e "variables" = Ret (PList records) /\
        Forall2 stored_from vars records /\
        forall record, In record records ->
          exists items,
            record = PDict items /\
            map fst items =
            ["key"; "protected"; "masked"; "environment_scope"; "variable_type"]%string.
Proof.
  apply (proj2 variable_record_fields two_pages 2%nat "2024-05-01T12:00:00"
               two_pages_report two_pages_calls).
  vm_compute. reflexivity.
Defined.

(** ** The stable sort *)

Section StableSort.

(** A set of keys on which [<] is defined, as a strict order [lt]; [same]
    tells keys apart that the order separates. *)
Variable dom : pyval -> Prop.
Variable lt : pyval -> pyval -> bool.
Variable same : pyval -> pyval -> bool.
Hypothesis py_lt_dom : forall a b, dom a -> dom b -> py_lt a b = Ret (lt a b).
Hypothesis lt_asym : forall a b, lt a b = true -> lt b a = false.
Hypothesis lt_not_same :
  forall k a b, lt a b = true -> same k a = true -> same k b = false.

Local Abbreviation keyed_ord := (key_ord lt).
Local Abbreviation keyed_dom := (key_dom dom).
Local Abbreviation keyed_same := (key_same same).

Lemma insert_keyed_spec x l :
  keyed_dom x -> Forall keyed_dom l ->
  exists r,
    insert_keyed x l = Ret r /\
    Permutation (x :: l) r /\
    (forall k, filter (keyed_same k) r = filter (keyed_same k) (x :: l)) /\
    (forall y, keyed_ord y x -> HdRel keyed_ord y l -> HdRel keyed_ord y r) /\
    (Sorted keyed_ord l -> Sorted keyed_ord r).
Proof.
  intros Hx. induction l as [|y l IH]; intros Hl.
  - exists [x]. cbn. repeat split; auto.
  - inversion Hl as [|? ? Hy Hl']; subst. cbn [insert_keyed].
    rewrite (py_lt_dom _ _ Hy Hx). cbn [rbind].
    destruct (lt (fst y) (fst x)) eqn:Hlt.
    + destruct (IH Hl') as (r & Hr & Hperm & Hstable & Hhd & Hsorted).
      rewrite Hr. cbn [rbind]. exists (y :: r). repeat split.
      * rewrite perm_swap. constructor. exact Hperm.
      * intros k. cbn [filter]. rewrite Hstable. cbn [filter].
        destruct (keyed_same k y) eqn:Hky, (keyed_same k x) eqn:Hkx; try reflexivity.
        unfold key_same in *. rewrite (lt_not_same k _ _ Hlt Hky) in Hkx. discriminate.
      * intros z _ Hz. inversion Hz; subst. constructor. assumption.
      * intros Hs. inversion Hs as [|? ? Hs' Hhd']; subst.
        constructor; [apply Hsorted, Hs'|].
        apply Hhd; [|exact Hhd']. unfold key_ord. apply lt_asym, Hlt.
    + exists (x :: y :: l). repeat split.
      * apply Permutation_refl.
      * intros y' Hy' _. constructor. exact Hy'.
      * intros Hs. constructor; [exact Hs|]. constructor. exact Hlt.
Qed.

Lemma sort_keyed_spec l :
  Forall keyed_dom l ->
  exists s,
    sort_keyed l = Ret s /\
    Permutation l s /\
    Sorted keyed_ord s /\
    (forall k, filter (keyed_same k) s = filter (keyed_same k) l).
Proof.
  induction l as [|x l IH]; intros Hl.
  - exists []. cbn. repeat split; auto.
  - inversion Hl as [|? ? Hx Hl']; subst.
    destruct (IH Hl') as (s & Hs & Hperm & Hsorted & Hstable).
    assert (Hdom : Forall keyed_dom s).
    { rewrite Forall_forall in *. intros y Hy. apply Hl'.
      eapply Permutation_in; [symmetry; exact Hperm | exact Hy]. }
    destruct (insert_keyed_spec x s Hx Hdom) as (r & Hr & Hperm' & Hstable' & _ & Hsorted').
    exists r. cbn [sort_keyed]. rewrite Hs. cbn [rbind]. repeat split.
    + exact Hr.
    + rewrite <- Hperm'. constructor. exact Hperm.
    + apply Hsorted', Hsorted.
    + intros k. rewrite Hstable'. cbn [filter]. rewrite Hstable. reflexivity.
Qed.

End StableSort.

Lemma HdRel_app_head {A : Type} (R : A -> A -> Prop) x l l' :
  l <> [] -> HdRel R x (l ++ l') -> HdRel R x l.
Proof.
  destruct l as [|y l]; [congruence|]. intros _ H. cbn in H.
  constructor. apply HdRel_inv in H. exact H.
Qed.

Lemma Sorted_snoc {A : Type} (Q : A -> A -> Prop) m :
  forall x, Sorted Q m -> HdRel (fun a b => Q b a) x (rev m) -> Sorted Q (m ++ [x]).
Proof.
  induction m as [|a m IH]; intros x Hs Hx; cbn.
  - constructor; constructor.
  - inversion Hs as [|? ? Hs' Hhd]; subst. cbn [rev] in Hx.
    destruct m as [|b m].
    + cbn in *. constructor; [constructor; constructor|].
      constructor. apply HdRel_inv in Hx. exact Hx.
    + constructor.
      * apply IH; [exact Hs'|]. apply HdRel_app_head in Hx; [exact Hx|].
        cbn. intros E. apply app_eq_nil in E. destruct E as [_ E]. discriminate E.
      * cbn. constructor. apply HdRel_inv in Hhd. exact Hhd.
Qed.

Lemma Sorted_rev {A : Type} (R : A -> A -> Prop) l :
  Sorted R l -> Sorted (fun a b => R b a) (rev l).
Proof.
  induction 1 as [|x l Hs IH Hhd]; cbn; [constructor|].
  apply Sorted_snoc; [exact IH|]. rewrite rev_involutive.
  destruct Hhd; constructor; assumption.
Qed.

Lemma Sorted_impl {A : Type} (R R' : A -> A -> Prop) l :
  (forall a b, R a b -> R' a b) -> Sorted R l -> Sorted R' l.
Proof.
  intros Himpl. induction 1 as [|x l Hs IH Hhd]; constructor; [exact IH|].
  destruct Hhd; constructor; auto.
Qed.

Lemma Sorted_map {A B : Type} (f : A -> B) (R : B -> B -> Prop) l :
  Sorted R (map f l) -> Sorted (fun a b => R (f a) (f b)) l.
Proof.
  induction l as [|x l IH]; intros H; [constructor|].
  cbn in H. inversion H as [|? ? Hs Hhd]; subst. constructor; [apply IH, Hs|].
  destruct l; cbn in *; constructor. apply HdRel_inv in Hhd. exact Hhd.
Qed.

Section SortedByKey.

Variable dom : pyval -> Prop.
Variable lt : pyval -> pyval -> bool.
Variable same : pyval -> pyval -> bool.
Hypothesis py_lt_dom : forall a b, dom a -> dom b -> py_lt a b = Ret (lt a b).
Hypothesis lt_asym : forall a b, lt a b = true -> lt b a = false.
Hypothesis lt_not_same :
  forall k a b, lt a b = true -> same k a = true -> same k b = false.

(** The key function [key] computes [rank] on the items at hand. *)
Variable key : pyval -> res pyval.
Variable rank : pyval -> pyval.

Local Abbreviation tag := (tagged rank).

Lemma mapM_key l :
  (forall x, In x l -> key x = Ret (rank x)) -> mapM key l = Ret (map rank l).
Proof.
  induction l as [|x l IH]; intros H; cbn; [reflexivity|].
  rewrite (H x (or_introl eq_refl)), IH; [reflexivity|].
  intros y Hy. apply H. right. exact Hy.
Qed.

Lemma combine_tag l : combine (map rank l) l = tag l.
Proof. induction l as [|x l IH]; cbn; [reflexivity | rewrite IH; reflexivity]. Qed.

Lemma tagged_perm l ks : Permutation (tag l) ks -> ks = tag (map snd ks).
Proof.
  intros H.
  assert (Hall : Forall (fun kv => fst kv = rank (snd kv)) ks).
  { rewrite Forall_forall. intros kv Hkv.
    apply (Permutation_in _ (Permutation_sym H)) in Hkv.
    unfold tagged in Hkv. apply in_map_iff in Hkv. destruct Hkv as (x & <- & _). reflexivity. }
  clear H. induction Hall as [|[k x] ks Hk _ IH]; cbn; [reflexivity|].
  cbn in Hk. subst k. f_equal. exact IH.
Qed.

Lemma map_snd_tag l : map snd (tag l) = l.
Proof. unfold tagged. rewrite map_map. cbn. apply map_id. Qed.

Lemma filter_tag k l :
  filter (key_same same k) (tag l) = tag (filter (fun x => same k (rank x)) l).
Proof.
  induction l as [|x l IH]; [reflexivity|].
  unfold tagged in *. cbn [map filter]. unfold key_same at 1. cbn [fst].
  destruct (same k (rank x)); cbn [map]; rewrite IH; reflexivity.
Qed.

Lemma sort_tagged l :
  (forall x, In x l -> dom (rank x)) ->
  exists s,
    sort_keyed (tag l) = Ret (tag s) /\
    Permutation l s /\
    Sorted (fun a b => lt (rank b) (rank a) = false) s /\
    (forall k, filter (fun x => same k (rank x)) s = filter (fun x => same k (rank x)) l).
Proof.
  intros Hdom.
  destruct (sort_keyed_spec dom lt same py_lt_dom lt_asym lt_not_same (tag l))
    as (ks & Hks & Hperm & Hsorted & Hstable).
  { unfold tagged. rewrite Forall_map, Forall_forall. exact Hdom. }
  pose proof (tagged_perm _ _ Hperm) as Htag.
  exists (map snd ks). rewrite <- Htag. repeat split.
  - exact Hks.
  - rewrite <- (map_snd_tag l) at 1. apply Permutation_map, Hperm.
  - rewrite Htag in Hsorted. unfold tagged in Hsorted. apply Sorted_map in Hsorted.
    exact Hsorted.
  - intros k. specialize (Hstable k). rewrite Htag, !filter_tag in Hstable.
    apply (f_equal (map snd)) in Hstable. rewrite !map_snd_tag in Hstable. exact Hstable.
Qed.

(** [sorted] on a list whose keys are in the domain: it returns a stable
    rearrangement of the list, ascending by key, or descending with
    [reverse]. *)
Lemma sorted_by_key reverse l :
  (forall x, In x l -> key x = Ret (rank x) /\ dom (rank x)) ->
  exists s,
    sorted key reverse (PList l) = Ret s /\
    Permutation l s /\
    Sorted (fun a b => if reverse then lt (rank a) (rank b) = false
                       else lt (rank b) (rank a) = false) s /\
    (forall k, filter (fun x => same k (rank x)) s = filter (fun x => same k (rank x)) l).
Proof.
  intros H. unfold sorted. cbn [py_iter rbind].
  rewrite mapM_key by (intros x Hx; apply H, Hx). cbn [rbind].
  rewrite combine_tag. destruct reverse.
  - unfold tagged at 1. rewrite <- map_rev. fold (tag (rev l)).
    destruct (sort_tagged (rev l)) as (s & Hs & Hperm & Hsorted & Hstable).
    { intros x Hx. apply in_rev in Hx. apply H, Hx. }
    rewrite Hs. cbn [rbind]. exists (rev s). repeat split.
    + unfold tagged. rewrite <- map_rev. fold (tag (rev s)). rewrite map_snd_tag. reflexivity.
    + rewrite <- Hperm. rewrite <- Permutation_rev. apply Permutation_rev.
    + apply Sorted_rev in Hsorted. exact Hsorted.
    + intros k. rewrite filter_rev, Hstable, filter_rev, rev_involutive. reflexivity.
  - destruct (sort_tagged l) as (s & Hs & Hperm & Hsorted & Hstable).
    { intros x Hx. apply H, Hx. }
    rewrite Hs. cbn [rbind]. exists s. rewrite map_snd_tag. repeat split; assumption.
Qed.

End SortedByKey.

(** ** Integer keys and string keys *)

Lemma int_lt_dom a b : is_int a -> is_int b -> py_lt a b = Ret (int_lt a b).
Proof. intros [x ->] [y ->]. reflexivity. Qed.

Lemma int_lt_asym a b : int_lt a b = true -> int_lt b a = false.
Proof.
  destruct a, b; cbn; try discriminate. intros H.
  apply Z.ltb_lt in H. apply Z.ltb_ge. lia.
Qed.

Lemma int_lt_not_same k a b :
  int_lt a b = true -> int_same k a = true -> int_same k b = false.
Proof.
  destruct k, a, b; cbn; try discriminate; try reflexivity. intros H1 H2.
  apply Z.ltb_lt in H1. apply Z.eqb_eq in H2. apply Z.eqb_neq. lia.
Qed.

Lemma str_lt_dom a b : is_str a -> is_str b -> py_lt a b = Ret (str_lt a b).
Proof. intros [x ->] [y ->]. reflexivity. Qed.

Lemma string_compare_refl s : String.compare s s = Eq.
Proof.
  pose proof (String.compare_antisym s s) as H.
  destruct (String.compare s s); try reflexivity; discriminate H.
Qed.

Lemma string_ltb_asym s t : String.ltb s t = true -> String.ltb t s = false.
Proof.
  unfold String.ltb. rewrite (String.compare_antisym t s).
  destruct (String.compare s t); cbn; congruence.
Qed.

Lemma str_lt_asym a b : str_lt a b = true -> str_lt b a = false.
Proof. destruct a, b; cbn; try discriminate; try reflexivity. apply string_ltb_asym. Qed.

Lemma str_lt_not_same k a b :
  str_lt a b = true -> str_same k a = true -> str_same k b = false.
Proof.
  destruct k, a, b; cbn; try discriminate; try reflexivity. intros H1 H2.
  apply String.eqb_eq in H2. subst. apply String.eqb_neq. intros ->.
  unfold String.ltb in H1. rewrite string_compare_refl in H1. discriminate.
Qed.

Lemma string_not_ltb_leb s t : String.ltb t s = false -> String.leb s t = true.
Proof.
  unfold String.ltb, String.leb. rewrite (String.compare_antisym s t).
  destruct (String.compare t s); cbn; congruence.
Qed.

Lemma string_leb_neq_ltb s t : String.leb s t = true -> s <> t -> String.ltb s t = true.
Proof.
  unfold String.ltb, String.leb. intros H Hne.
  destruct (String.compare s t) eqn:Hc; try congruence.
  apply String.compare_eq_iff in Hc. contradiction.
Qed.

(** ** The console summary *)

Lemma for_each_prints {A : Type} (f : A -> M line unit) l :
  (forall x, In x l -> exists w, f x = Ret (tt, w)) ->
  for_each (fun x _ => f x) l tt = Ret (tt, flat_map (fun x => lines_of (f x)) l).
Proof.
  induction l as [|x l IH]; intros H; cbn [for_each flat_map]; [reflexivity|].
  destruct (H x (or_introl eq_refl)) as (w & Hw).
  unfold bind. rewrite Hw, IH; [reflexivity|].
  intros y Hy. apply H. right. exact Hy.
Qed.

Lemma printed_after_app prefix l1 l2 :
  printed_after prefix (l1 ++ l2) = printed_after prefix l1 ++ printed_after prefix l2.
Proof. apply flat_map_app. Qed.

Lemma printed_after_flat_map {A : Type} prefix (f : A -> list line) l :
  printed_after prefix (flat_map f l) = flat_map (fun x => printed_after prefix (f x)) l.
Proof.
  induction l as [|x l IH]; cbn [flat_map]; [reflexivity|].
  rewrite printed_after_app, IH. reflexivity.
Qed.

Lemma display_variable_prints record :
  record_ok record ->
  exists detail,
    display_variable record = Ret (tt, [[Text "   • "; Str (key_of record)]; detail]) /\
    printed_after (nl ++ "📁 Project: ") [detail] = [] /\
    printed_after "   • " [detail] = [].
Proof.
  intros [key protected masked scope type]. eexists. split.
  - reflexivity.
  - split; reflexivity.
Qed.

Lemma bind_lift_eq {E A B : Type} (c : res A) (a : A) (k : A -> M E B) :
  c = Ret a -> bind (lift c) k = k a.
Proof.
  intros ->. unfold bind, lift. destruct (k a) as [[b w]| |]; reflexivity.
Qed.

Lemma bind_print {A : Type} (l : line) (k : unit -> M line A) :
  bind (print l) k = prefix_lines [l] (k tt).
Proof. reflexivity. Qed.

Lemma flat_map_nil {A B : Type} (f : A -> list B) l :
  (forall x, In x l -> f x = []) -> flat_map f l = [].
Proof.
  induction l as [|x l IH]; intros H; cbn; [reflexivity|].
  rewrite (H x (or_introl eq_refl)), IH; [reflexivity|].
  intros y Hy. apply H. right. exact Hy.
Qed.

Lemma flat_map_singleton {A B : Type} (f : A -> list B) (g : A -> B) l :
  (forall x, In x l -> f x = [g x]) -> flat_map f l = map g l.
Proof.
  induction l as [|x l IH]; intros H; cbn; [reflexivity|].
  rewrite (H x (or_introl eq_refl)), IH; [reflexivity|].
  intros y Hy. apply H. right. exact Hy.
Qed.

Lemma Forall_perm {A : Type} (P : A -> Prop) l l' :
  Permutation l l' -> Forall P l -> Forall P l'.
Proof.
  intros Hperm H. rewrite Forall_forall in *. intros x Hx. apply H.
  eapply Permutation_in; [symmetry; exact Hperm | exact Hx].
Qed.

(** The variables of a project are printed in the order [sorted] gives
    them, after the heading of the project. *)
Lemma display_project_prints id name path web_url records :
  Forall record_ok records ->
  let entry := PDict [("id", id); ("name", name); ("path", path);
                      ("web_url", web_url); ("variables", PList records)] in
  exists ordered,
    sorted by_key false (PList records) = Ret ordered /\
    Permutation records ordered /\
    Sorted (fun a b => str_lt (key_of b) (key_of a) = false) ordered /\
    (forall k, filter (fun r => str_same k (key_of r)) ordered =
               filter (fun r => str_same k (key_of r)) records) /\
    display_project entry =
    Ret (tt, project_heading entry ++ flat_map (fun r => lines_of (display_variable r)) ordered).
Proof.
  intros Hrecords entry.
  destruct (sorted_by_key is_str str_lt str_same str_lt_dom str_lt_asym str_lt_not_same
                          by_key key_of false records)
    as (ordered & Hsorted & Hperm & Hord & Hstable).
  { intros x Hx. rewrite Forall_forall in Hrecords.
    destruct (Hrecords x Hx). split; [reflexivity | eexists; reflexivity]. }
  exists ordered. repeat split; try assumption.
  unfold display_project.
  rewrite (bind_lift_eq _ name) by reflexivity. rewrite bind_print.
  rewrite (bind_lift_eq _ path) by reflexivity. rewrite bind_print.
  rewrite (bind_lift_eq _ web_url) by reflexivity. rewrite bind_print.
  rewrite (bind_lift_eq _ (PList records)) by reflexivity.
  rewrite (bind_lift_eq _ (Z.of_nat (List.length records))) by reflexivity.
  rewrite !bind_print.
  rewrite (bind_lift_eq _ (PList records)) by reflexivity.
  change (fun x => subscript x "key") with by_key.
  rewrite (bind_lift_eq _ ordered) by exact Hsorted.
  rewrite for_each_prints.
  - reflexivity.
  - intros x Hx. apply (Forall_perm _ _ _ Hperm) in Hrecords.
    rewrite Forall_forall in Hrecords.
    destruct (display_variable_prints x (Hrecords x Hx)) as (detail & Hd & _).
    eexists. exact Hd.
Qed.

(** The summary prints its heading, the projects in the order [sorted]
    gives them, and the closing rule. *)
Lemma display_summary_prints audit_date total with_secrets secrets entries :
  entries <> [] ->
  Forall entry_ok entries ->
  exists ordered,
    sorted by_count true (PList entries) = Ret ordered /\
    Permutation entries ordered /\
    Sorted (fun a b => int_lt (PInt (count_variables a)) (PInt (count_variables b)) = false)
           ordered /\
    (forall k, filter (fun e => int_same k (PInt (count_variables e))) ordered =
               filter (fun e => int_same k (PInt (count_variables e))) entries) /\
    display_summary (PDict [("audit_date", audit_date); ("total_projects", total);
                            ("projects_with_secrets", with_secrets);
                            ("total_secrets", secrets); ("projects", PList entries)]) =
    Ret (tt, summary_heading audit_date total with_secrets secrets ++
             flat_map (fun e => lines_of (display_project e)) ordered ++
             [[Text (nl ++ times "=" 80)]]).
Proof.
  intros Hne Hentries.
  destruct (sorted_by_key is_int int_lt int_same int_lt_dom int_lt_asym int_lt_not_same
                          by_count (fun e => PInt (count_variables e)) true entries)
    as (ordered & Hsorted & Hperm & Hord & Hstable).
  { intros x Hx. rewrite Forall_forall in Hentries.
    destruct (Hentries x Hx). split; [reflexivity | eexists; reflexivity]. }
  exists ordered. repeat split; try assumption.
  unfold display_summary.
  rewrite !bind_print.
  rewrite (bind_lift_eq _ audit_date) by reflexivity. rewrite bind_print.
  rewrite (bind_lift_eq _ total) by reflexivity. rewrite bind_print.
  rewrite (bind_lift_eq _ with_secrets) by reflexivity. rewrite bind_print.
  rewrite (bind_lift_eq _ secrets) by reflexivity. rewrite !bind_print.
  rewrite (bind_lift_eq _ (PList entries)) by reflexivity.
  destruct entries as [|e0 entries]; [congruence|]. cbn [truthy negb].
  change (fun x => let* vs := subscript x "variables" in
                   let* n := py_len vs in Ret (PInt n)) with by_count.
  rewrite (bind_lift_eq _ ordered) by exact Hsorted.
  rewrite for_each_prints.
  - unfold bind, print, prefix_lines, summary_heading. cbn [app]. reflexivity.
  - intros x Hx. apply (Forall_perm _ _ _ Hperm) in Hentries.
    rewrite Forall_forall in Hentries.
    destruct (Hentries x Hx) as [id name path web_url records Hrecords].
    destruct (display_project_prints id name path web_url records Hrecords)
      as (vars & _ & _ & _ & _ & Hd).
    eexists. exact Hd.
Qed.

Lemma project_lines_projects id name path web_url records :
  Forall record_ok records ->
  let entry := PDict [("id", id); ("name", name); ("path", path);
                      ("web_url", web_url); ("variables", PList records)] in
  printed_projects (lines_of (display_project entry)) = [name].
Proof.
  intros Hrecords entry.
  destruct (display_project_prints id name path web_url records Hrecords)
    as (ordered & _ & Hperm & _ & _ & Hd).
  fold entry in Hd. rewrite Hd. cbn [lines_of].
  unfold printed_projects. rewrite printed_after_app, printed_after_flat_map.
  rewrite flat_map_nil.
  - reflexivity.
  - intros x Hx. apply (Forall_perm _ _ _ Hperm) in Hrecords.
    rewrite Forall_forall in Hrecords.
    destruct (display_variable_prints x (Hrecords x Hx)) as (detail & -> & Hnone & _).
    cbn [lines_of]. change [?a; detail] with ([a] ++ [detail]).
    rewrite printed_after_app, Hnone. reflexivity.
Qed.

Lemma project_lines_keys id name path web_url records :
  Forall record_ok records ->
  let entry := PDict [("id", id); ("name", name); ("path", path);
                      ("web_url", web_url); ("variables", PList records)] in
  exists ordered,
    sorted by_key false (PList records) = Ret ordered /\
    printed_keys (lines_of (display_project entry)) = map key_of ordered.
Proof.
  intros Hrecords entry.
  destruct (display_project_prints id name path web_url records Hrecords)
    as (ordered & Hsorted & Hperm & _ & _ & Hd).
  exists ordered. split; [exact Hsorted|].
  fold entry in Hd. rewrite Hd. cbn [lines_of].
  unfold printed_keys. rewrite printed_after_app, printed_after_flat_map.
  change (printed_after "   • " (project_heading entry)) with (@nil pyval).
  cbn [app]. apply flat_map_singleton.
  intros x Hx. apply (Forall_perm _ _ _ Hperm) in Hrecords.
  rewrite Forall_forall in Hrecords.
  destruct (display_variable_prints x (Hrecords x Hx)) as (detail & -> & _ & Hnone).
  cbn [lines_of]. change [?a; detail] with ([a] ++ [detail]).
  rewrite printed_after_app, Hnone. reflexivity.
Qed.

Lemma Sorted_NoDup_strict (l : list pyval) :
  NoDup (map key_str l) ->
  Sorted (fun a b => (key_str a <=? key_str b)%string = true) l ->
  Sorted (fun a b => (key_str a <? key_str b)%string = true) l.
Proof.
  induction l as [|x l IH]; intros Hnd Hs; [constructor|].
  cbn in Hnd. inversion Hnd as [|? ? Hx Hnd']; subst.
  inversion Hs as [|? ? Hs' Hhd]; subst.
  constructor; [apply IH; assumption|].
  destruct Hhd as [|y l' Hxy]; constructor.
  apply string_leb_neq_ltb; [exact Hxy|].
  intros E. apply Hx. cbn. left. symmetry. exact E.
Qed.

(** ** The claims on the console summary *)

(** C6: for every report with a non-empty [projects] list (the entries
    as the audit builds them, the variable keys strings),
    [display_summary] prints the project headings in a stable
    rearrangement of the entries by descending variable count: entries
    with equal counts keep their order in the report; and a project with
    3 variables is printed before one with 1 variable that precedes it
    in the report. *)
Theorem display_summary_project_order :
  (forall audit_date total with_secrets secrets entries,
      entries <> [] ->
      Forall entry_ok entries ->
      exists ordered lines,
        display_summary (PDict [("audit_date", audit_date); ("total_projects", total);
                                ("projects_with_secrets", with_secrets);
                                ("total_secrets", secrets);
                                ("projects", PList entries)]) = Ret (tt, lines) /\
        printed_projects lines = map name_of ordered /\
        Permutation entries ordered /\
        Sorted (fun a b => count_variables b <= count_variables a) ordered /\
        (forall c, filter (fun e => count_variables e =? c) ordered =
                   filter (fun e => count_variables e =? c) entries)) /\
  printed_projects (lines_of (display_summary report_B_then_A)) = [PStr "A"; PStr "B"].
Proof.
  split; [|reflexivity].
  intros audit_date total with_secrets secrets entries Hne Hentries.
  destruct (display_summary_prints audit_date total with_secrets secrets entries Hne Hentries)
    as (ordered & _ & Hperm & Hord & Hstable & Hd).
  exists ordered. eexists. split; [exact Hd|]. repeat split.
  - unfold printed_projects. rewrite !printed_after_app, printed_after_flat_map.
    change (printed_after _ (summary_heading _ _ _ _)) with (@nil pyval).
    change (printed_after _ [[Text (nl ++ times "=" 80)]]) with (@nil pyval).
    rewrite app_nil_r. cbn [app]. apply flat_map_singleton.
    intros x Hx. apply (Forall_perm _ _ _ Hperm) in Hentries.
    rewrite Forall_forall in Hentries.
    destruct (Hentries x Hx) as [id name path web_url records Hrecords].
    apply (project_lines_projects id name path web_url records Hrecords).
  - exact Hperm.
  - apply (Sorted_impl _ _ _ (fun a b H => proj1 (Z.ltb_ge _ _) H)) in Hord. exact Hord.
  - intros c. specialize (Hstable (PInt c)). cbn [int_same] in Hstable.
    rewrite (filter_ext _ (fun e => c =? count_variables e)) by (intros e; apply Z.eqb_sym).
    rewrite (filter_ext (fun e => count_variables e =? c) (fun e => c =? count_variables e))
      by (intros e; apply Z.eqb_sym).
    exact Hstable.
Qed.

Lemma display_summary_project_order_witness :
  exists ordered lines,
    display_summary report_B_then_A = Ret (tt, lines) /\
    printed_projects lines = map name_of ordered /\
    Permutation [entry_B; entry_A] ordered /\
    Sorted (fun a b => count_variables b <= count_variables a) ordered /\
    (forall c, filter (fun e => count_variables e =? c) ordered =
               filter (fun e => count_variables e =? c) [entry_B; entry_A]).
Proof.
  apply (proj1 display_summary_project_order).
  - discriminate.
  - repeat constructor.
Defined.

(** C7, as the code has it: the variables of a project (their keys
    strings) are printed in a stable rearrangement by ascending key, in
    the code-point order of the keys: each key is at most the next one,
    variables with equal keys keep their order in the report, and the
    order is strictly ascending when the keys are pairwise different;
    and the variables [B_KEY], [A_KEY] are printed as [A_KEY], [B_KEY]. *)
Theorem display_summary_variable_order :
  (forall id name path web_url records,
      Forall record_ok records ->
      exists ordered lines,
        display_project (PDict [("id", id); ("name", name); ("path", path);
                                ("web_url", web_url); ("variables", PList records)]) =
        Ret (tt, lines) /\
        printed_keys lines = map key_of ordered /\
        Permutation records ordered /\
        Sorted (fun a b => (key_str a <=? key_str b)%string = true) ordered /\
        (forall k, filter (fun r => (key_str r =? k)%string) ordered =
                   filter (fun r => (key_str r =? k)%string) records) /\
        (NoDup (map key_str records) ->
         Sorted (fun a b => (key_str a <? key_str b)%string = true) ordered)) /\
  printed_keys (lines_of (display_summary two_pages_report)) = [PStr "A_KEY"; PStr "B_KEY"].
Proof.
  split; [|reflexivity].
  intros id name path web_url records Hrecords.
  destruct (display_project_prints id name path web_url records Hrecords)
    as (ordered & Hsorted & Hperm & Hord & Hstable & Hd).
  destruct (project_lines_keys id name path web_url records Hrecords)
    as (ordered' & Hsorted' & Hkeys).
  rewrite Hsorted in Hsorted'. injection Hsorted' as <-.
  rewrite Hd in Hkeys. cbn [lines_of] in Hkeys.
  assert (Hok : Forall record_ok ordered) by (apply (Forall_perm _ _ _ Hperm), Hrecords).
  assert (Hle : Sorted (fun a b => (key_str a <=? key_str b)%string = true) ordered).
  { clear - Hord Hok. induction Hord as [|x l Hs IH Hhd]; [constructor|].
    inversion Hok as [|? ? Hx Hl]; subst. constructor; [apply IH, Hl|].
    destruct Hhd as [|y l' Hxy]; constructor.
    inversion Hl as [|? ? Hy _]; subst. destruct Hx, Hy. cbn in *.
    apply string_not_ltb_leb, Hxy. }
  exists ordered. eexists. split; [exact Hd|]. repeat split.
  - exact Hkeys.
  - exact Hperm.
  - exact Hle.
  - intros k. specialize (Hstable (PStr k)).
    rewrite (filter_ext_in _ (fun r => str_same (PStr k) (key_of r)) ordered).
    + rewrite (filter_ext_in (fun r => (key_str r =? k)%string)
                             (fun r => str_same (PStr k) (key_of r)) records).
      * exact Hstable.
      * intros r Hr. rewrite Forall_forall in Hrecords. destruct (Hrecords r Hr).
        cbn. apply String.eqb_sym.
    + intros r Hr. rewrite Forall_forall in Hok. destruct (Hok r Hr).
      cbn. apply String.eqb_sym.
  - intros Hnd. apply Sorted_NoDup_strict; [|exact Hle].
    eapply Permutation_NoDup; [|exact Hnd]. apply Permutation_map, Hperm.
Qed.

Lemma display_summary_variable_order_witness :
  exists ordered lines,
    display_project same_key_entry = Ret (tt, lines) /\
    printed_keys lines = map key_of ordered /\
    Permutation [PDict [("key", PStr "API_TOKEN"); ("protected", PBool true);
                        ("masked", PBool true); ("environment_scope", PStr "production");
                        ("variable_type", PStr "env_var")];
                 PDict [("key", PStr "API_TOKEN"); ("protected", PBool false);
                        ("masked", PBool true); ("environment_scope", PStr "staging");
                        ("variable_type", PStr "env_var")]] ordered /\
    Sorted (fun a b => (key_str a <=? key_str b)%string = true) ordered /\
    (forall k, filter (fun r => (key_str r =? k)%string) ordered =
               filter (fun r => (key_str r =? k)%string)
                      [PDict [("key", PStr "API_TOKEN"); ("protected", PBool true);
                              ("masked", PBool true);
                              ("environment_scope", PStr "production");
                              ("variable_type", PStr "env_var")];
                       PDict [("key", PStr "API_TOKEN"); ("protected", PBool false);
                              ("masked", PBool true);
                              ("environment_scope", PStr "staging");
                              ("variable_type", PStr "env_var")]]) /\
    (NoDup (map key_str
                [PDict [("key", PStr "API_TOKEN"); ("protected", PBool true);
                        ("masked", PBool true); ("environment_scope", PStr "production");
                        ("variable_type", PStr "env_var")];
                 PDict [("key", PStr "API_TOKEN"); ("protected", PBool false);
                        ("masked", PBool true); ("environment_scope", PStr "staging");
                        ("variable_type", PStr "env_var")]]) ->
     Sorted (fun a b => (key_str a <? key_str b)%string = true) ordered).
Proof.
  apply (proj1 display_summary_variable_order).
  repeat constructor.
Defined.

(** Counterexample to strictly ascending keys (C7): GitLab keeps one
    variable per key and environment scope, the audit of such a project
    returns an entry with two variables of the same key, and their keys
    are printed one after the other. *)
Lemma same_key_not_strictly_ascending :
  (exists calls,
      audit_secrets two_environments 1 "2024-05-01T12:00:00" =
      Ret (report "2024-05-01T12:00:00" 1 [same_key_entry], calls)) /\
  printed_keys (lines_of (display_project same_key_entry)) =
  [PStr "API_TOKEN"; PStr "API_TOKEN"] /\
  ~ strictly_ascending (printed_keys (lines_of (display_project same_key_entry))).
Proof.
  split; [eexists; vm_compute; reflexivity|].
  split; [reflexivity|].
  change (printed_keys (lines_of (display_project same_key_entry)))
    with [PStr "API_TOKEN"; PStr "API_TOKEN"].
  intros H. inversion H as [|? ? _ Hhd]; subst.
  apply HdRel_inv in Hhd. vm_compute in Hhd. discriminate Hhd.
Qed.

(** ** A variable without a key *)

(** Induction on Python values, through lists and dictionaries. *)
Lemma pyval_induction (P : pyval -> Prop) :
  P PNone ->
  (forall b, P (PBool b)) ->
  (forall n, P (PInt n)) ->
  (forall s, P (PStr s)) ->
  (forall l, Forall P l -> P (PList l)) ->
  (forall d, Forall (fun kv => P (snd kv)) d -> P (PDict d)) ->
  forall v, P v.
Proof.
  intros HNone HBool HInt HStr HList HDict.
  fix IH 1. intros [| b | n | s | l | d].
  - exact HNone.
  - apply HBool.
  - apply HInt.
  - apply HStr.
  - apply HList. induction l as [|x l IHl]; constructor; [apply IH | exact IHl].
  - apply HDict. induction d as [|[k x] d IHd]; constructor; [apply IH | exact IHd].
Qed.

(** A comparison answers or raises a [TypeError]. *)
Lemma py_lt_outcome a :
  forall b, (exists r, py_lt a b = Ret r) \/ py_lt a b = Raise TypeError.
Proof.
  induction a as [| x | x | s | l IH | d _] using pyval_induction; intros b;
    try (destruct b; cbn; eauto; fail).
  destruct b as [| | | | m |]; try (right; reflexivity).
  cbn [py_lt]. revert m.
  induction IH as [|x l Hx _ IHl]; intros m.
  - destruct m; left; eexists; reflexivity.
  - destruct m as [|y m]; [left; eexists; reflexivity|].
    destruct (py_eq x y); [apply IHl | apply Hx].
Qed.

Lemma py_lt_None_l b : py_lt PNone b = Raise TypeError.
Proof. reflexivity. Qed.

Lemma py_lt_None_r a : py_lt a PNone = Raise TypeError.
Proof. destruct a; reflexivity. Qed.

Lemma insert_keyed_outcome x l :
  (exists r, insert_keyed x l = Ret r /\ Permutation (x :: l) r) \/
  insert_keyed x l = Raise TypeError.
Proof.
  induction l as [|y l IH]; cbn [insert_keyed].
  - left. exists [x]. split; [reflexivity | apply Permutation_refl].
  - destruct (py_lt_outcome (fst y) (fst x)) as [(b & ->) | ->]; [|right; reflexivity].
    cbn [rbind]. destruct b.
    + destruct IH as [(r & -> & Hperm) | ->]; [|right; reflexivity].
      left. exists (y :: r). split; [reflexivity|].
      rewrite perm_swap. constructor. exact Hperm.
    + left. exists (x :: y :: l). split; [reflexivity | apply Permutation_refl].
Qed.

Lemma sort_keyed_outcome l :
  (exists s, sort_keyed l = Ret s /\ Permutation l s) \/ sort_keyed l = Raise TypeError.
Proof.
  induction l as [|x l IH]; cbn [sort_keyed].
  - left. exists []. split; [reflexivity | constructor].
  - destruct IH as [(s & -> & Hperm) | ->]; [|right; reflexivity].
    cbn [rbind]. destruct (insert_keyed_outcome x s) as [(r & -> & Hperm') | ->].
    + left. exists r. split; [reflexivity|]. rewrite <- Hperm'. constructor. exact Hperm.
    + right. reflexivity.
Qed.

(** With two items or more, an item whose key is [None] is compared with
    another one, and the sort raises. *)
Lemma sort_keyed_None l :
  (2 <= List.length l)%nat ->
  Exists (fun kv => fst kv = PNone) l ->
  sort_keyed l = Raise TypeError.
Proof.
  induction l as [|x l IH]; intros Hlen Hnone; [cbn in Hlen; lia|].
  cbn [sort_keyed].
  destruct (sort_keyed_outcome l) as [(s & Hs & Hperm) | Hs]; rewrite Hs; [|reflexivity].
  cbn [rbind].
  destruct s as [|y s].
  { apply Permutation_sym, Permutation_nil in Hperm. subst l. cbn in Hlen. lia. }
  cbn [insert_keyed].
  inversion Hnone as [? ? Hx | ? ? Hl]; subst.
  - rewrite Hx, py_lt_None_r. reflexivity.
  - destruct l as [|z [|z' l]].
    + inversion Hl.
    + apply Permutation_length_1_inv in Hperm. injection Hperm as -> ->.
      inversion Hl as [? ? Hz | ? ? Hl']; subst; [|inversion Hl'].
      rewrite Hz, py_lt_None_l. reflexivity.
    + rewrite IH in Hs; [discriminate Hs | cbn; lia | exact Hl].
Qed.

Lemma five_fields_key record :
  five_fields record -> by_key record = Ret (key_of record).
Proof. intros []. reflexivity. Qed.

Lemma sorted_by_key_outcome records :
  Forall five_fields records ->
  (exists s, sorted by_key false (PList records) = Ret s /\ Permutation records s) \/
  sorted by_key false (PList records) = Raise TypeError.
Proof.
  intros Hrecords. unfold sorted. cbn [py_iter rbind].
  rewrite (mapM_key by_key key_of).
  2:{ intros x Hx. rewrite Forall_forall in Hrecords. apply five_fields_key, Hrecords, Hx. }
  cbn [rbind]. rewrite combine_tag.
  destruct (sort_keyed_outcome (tagged key_of records)) as [(s & -> & Hperm) | ->];
    [left | right; reflexivity].
  cbn [rbind]. exists (map snd s). split; [reflexivity|].
  rewrite <- (map_snd_tag key_of records) at 1. apply Permutation_map, Hperm.
Qed.

Lemma sorted_by_key_None records :
  Forall five_fields records ->
  (2 <= List.length records)%nat ->
  Exists (fun r => key_of r = PNone) records ->
  sorted by_key false (PList records) = Raise TypeError.
Proof.
  intros Hrecords Hlen Hnone. unfold sorted. cbn [py_iter rbind].
  rewrite (mapM_key by_key key_of).
  2:{ intros x Hx. rewrite Forall_forall in Hrecords. apply five_fields_key, Hrecords, Hx. }
  cbn [rbind]. rewrite combine_tag, sort_keyed_None; [reflexivity | |].
  - unfold tagged. rewrite length_map. exact Hlen.
  - unfold tagged. rewrite Exists_map. exact Hnone.
Qed.

Lemma display_variable_returns record :
  five_fields record -> exists w, display_variable record = Ret (tt, w).
Proof. intros []. eexists. reflexivity. Qed.

(** Rendering an entry of the audit prints its lines or raises a
    [TypeError], and it raises when the entry is keyless. *)
Lemma display_project_outcome entry :
  entry_shape entry ->
  ((exists w, display_project entry = Ret (tt, w)) \/
   display_project entry = Raise TypeError) /\
  (keyless_entry entry -> display_project entry = Raise TypeError).
Proof.
  intros [id name path web_url records Hrecords].
  unfold display_project.
  rewrite (bind_lift_eq _ name) by reflexivity. rewrite bind_print.
  rewrite (bind_lift_eq _ path) by reflexivity. rewrite bind_print.
  rewrite (bind_lift_eq _ web_url) by reflexivity. rewrite bind_print.
  rewrite (bind_lift_eq _ (PList records)) by reflexivity.
  rewrite (bind_lift_eq _ (Z.of_nat (List.length records))) by reflexivity.
  rewrite !bind_print.
  rewrite (bind_lift_eq _ (PList records)) by reflexivity.
  change (fun x => subscript x "key") with by_key.
  split.
  - destruct (sorted_by_key_outcome records Hrecords) as [(s & -> & Hperm) | ->];
      [left | right; reflexivity].
    rewrite (bind_lift_eq _ s) by reflexivity.
    rewrite for_each_prints.
    + eexists. reflexivity.
    + intros x Hx. apply display_variable_returns.
      apply (Forall_perm _ _ _ Hperm) in Hrecords.
      rewrite Forall_forall in Hrecords. apply Hrecords, Hx.
  - intros Hk. inversion Hk as [? ? ? ? ? Hlen Hnone]; subst.
    rewrite sorted_by_key_None by assumption. reflexivity.
Qed.



Lemma Forall2_In_l {A B : Type} (R : A -> B -> Prop) l l' :
  Forall2 R l l' -> forall x, In x l -> exists y, In y l' /\ R x y.
Proof.
  induction 1 as [|x y l l' Hxy _ IH]; intros z Hz; [destruct Hz|].
  destruct Hz as [<- | Hz].
  - exists y. split; [left; reflexivity | exact Hxy].
  - destruct (IH z Hz) as (y' & Hin & Hr). exists y'. split; [right; exact Hin | exact Hr].
Qed.

Lemma stored_from_five_fields vars records :
  Forall2 stored_from vars records -> Forall five_fields records.
Proof. induction 1 as [|v r vs rs Hvr _ IH]; constructor; [destruct Hvr; constructor | exact IH]. Qed.

Lemma entry_of_shape server project e : entry_of server project e -> entry_shape e.
Proof.
  intros [id name path web_url vars records _ _ _ _ _ _ Hrec ->].
  constructor. eapply stored_from_five_fields, Hrec.
Qed.



(** * Further properties *)

(** ** The enumeration in full *)

Lemma page_numbers_snoc n :
  forall p,
    map page_request (page_numbers p n) ++ [page_request (p + Z.of_nat n)] =
    map page_request (page_numbers p (S n)).
Proof.
  induction n as [|n IH]; intros p.
  - cbn. rewrite Z.add_0_r. reflexivity.
  - cbn [page_numbers map app]. f_equal.
    replace (p + Z.of_nat (S n)) with (p + 1 + Z.of_nat n) by lia. apply IH.
Qed.

Section EnumerationRuns.

Variable server : request -> reply.

(** The loop walks through [n] continuing pages and goes on from the
    next one. *)
Lemma fetch_pages_skip n :
  forall (items_of : nat -> list pyval) fuel acc p,
    pages_continue server p n items_of ->
    fetch_pages server (n + fuel) acc p =
    after_events (map page_request (page_numbers p n))
                 (fetch_pages server fuel (acc ++ flat_map items_of (seq 0 n))
                              (p + Z.of_nat n)).
Proof.
  induction n as [|n IH]; intros items_of fuel acc p Hpages.
  - cbn [Nat.add page_numbers map seq flat_map]. rewrite app_nil_r, Z.add_0_r.
    destruct (fetch_pages server fuel acc p) as [[ps cs]| |]; reflexivity.
  - cbn [Nat.add]. rewrite fetch_pages_step.
    destruct (Hpages O ltac:(lia)) as (headers & body & Hs & Hb & Hit & Hm).
    rewrite Z.add_0_r in Hs. rewrite Hs, Hb, Hit, Hm. cbn [negb].
    rewrite (IH (fun k => items_of (S k))).
    + cbn [seq flat_map page_numbers map].
      rewrite (flat_map_seq_shift items_of n 0), <- !app_assoc.
      replace (p + 1 + Z.of_nat n) with (p + Z.of_nat (S n)) by lia.
      destruct (fetch_pages server fuel _ _) as [[ps cs]| |]; reflexivity.
    + intros k Hk. destruct (Hpages (S k) ltac:(lia)) as (h & b & Hs' & Hrest).
      exists h, b. split; [|exact Hrest].
      replace (p + 1 + Z.of_nat k) with (p + Z.of_nat (S k)) by lia. exact Hs'.
Qed.

End EnumerationRuns.

Lemma pages_go_on_continue server p n items_of :
  pages_go_on server p n items_of -> pages_continue server p n items_of.
Proof.
  intros Hpages k Hk. destruct (Hpages k Hk) as (headers & body & Hs & Hb & Hit & Hm).
  exists headers, body. repeat split; try assumption.
  apply more_pages_announces, Hm.
Qed.

(** X1: after [n] pages that are non-empty and whose [x-next-page]
    header is present and not empty, a last page that is non-empty and
    whose header is absent or empty is included in the result, and an
    empty last page ends the enumeration with the items of the pages
    before it; either way one HTTP call was made per page. *)
Theorem get_all_projects_collects_pages :
  forall server n (items_of : nat -> list pyval) fuel headers body,
    pages_go_on server 1 n items_of ->
    server (page_request (1 + Z.of_nat n)) = Success headers body ->
    (n < fuel)%nat ->
    (truthy body = false ->
     get_all_projects server fuel =
     Ret (flat_map items_of (seq 0 n), map page_request (page_numbers 1 (S n)))) /\
    (forall last,
        truthy body = true -> py_iter body = Ret last -> lacks_next headers ->
        get_all_projects server fuel =
        Ret (flat_map items_of (seq 0 n) ++ last,
             map page_request (page_numbers 1 (S n)))).
Proof.
  intros server n items_of fuel headers body Hpages Hs Hfuel.
  apply pages_go_on_continue in Hpages.
  assert (Hcalls : forall (a : list pyval),
             after_events (map page_request (page_numbers 1 n))
                          (Ret (a, [page_request (1 + Z.of_nat n)])) =
             Ret (a, map page_request (page_numbers 1 (S n)))).
  { intros a. cbn [after_events]. rewrite page_numbers_snoc. reflexivity. }
  unfold get_all_projects.
  replace fuel with (n + S (fuel - S n))%nat by lia.
  rewrite (fetch_pages_skip server n items_of _ _ _ Hpages), fetch_pages_step, Hs.
  cbn [app]. split.
  - intros Hb. rewrite Hb. cbn [negb]. apply Hcalls.
  - intros last Hb Hit Hm. apply more_pages_lacks in Hm.
    rewrite Hb, Hit, Hm. cbn [negb]. apply Hcalls.
Qed.

Lemma get_all_projects_collects_pages_witness :
  get_all_projects two_pages 3 =
  Ret ([project_one; project_two], [page_request 1; page_request 2]) /\
  get_all_projects no_next_header 3 =
  Ret ([project_one; project_two; project_three], [page_request 1; page_request 2]).
Proof.
  assert (Hfirst : forall server,
             server (page_request 1) = two_pages (page_request 1) ->
             pages_go_on server 1 1 (fun _ => [project_one; project_two])).
  { intros server Hs k Hk. assert (k = 0%nat) as -> by lia.
    cbn [Z.of_nat Z.add Pos.add]. rewrite Hs.
    eexists _, _. repeat split; try reflexivity.
    apply (announces_next_intro _ "2"%string); [reflexivity | discriminate]. }
  split.
  - refine (proj1 (get_all_projects_collects_pages
                     two_pages 1%nat (fun _ => [project_one; project_two]) 3%nat
                     (fun _ => None) (PList []) (Hfirst two_pages eq_refl) eq_refl _) eq_refl).
    lia.
  - refine (proj2 (get_all_projects_collects_pages
                     no_next_header 1%nat (fun _ => [project_one; project_two]) 3%nat
                     (fun _ => None) (PList [project_three]) (Hfirst no_next_header eq_refl)
                     eq_refl _)
                  [project_three] eq_refl eq_refl _).
    + lia.
    + left. reflexivity.
Defined.

(** X2: only a [RequestException] is caught: when a page comes back as a
    number other than zero or as [true], the [TypeError] of
    [projects.extend] escapes [get_all_projects] and the projects of the
    pages before it are lost. *)
Theorem get_all_projects_type_error :
  forall server n (items_of : nat -> list pyval) fuel headers body,
    pages_continue server 1 n items_of ->
    server (page_request (1 + Z.of_nat n)) = Success headers body ->
    (exists m, body = PInt m /\ m <> 0) \/ body = PBool true ->
    (n < fuel)%nat ->
    get_all_projects server fuel = Raise TypeError.
Proof.
  intros server n items_of fuel headers body Hpages Hs Hbody Hfuel.
  unfold get_all_projects.
  replace fuel with (n + S (fuel - S n))%nat by lia.
  rewrite (fetch_pages_skip server n items_of _ _ _ Hpages), fetch_pages_step, Hs.
  destruct Hbody as [(m & -> & Hm) | ->].
  - cbn [truthy]. apply Z.eqb_neq in Hm. rewrite Hm. reflexivity.
  - reflexivity.
Qed.

Lemma get_all_projects_type_error_witness :
  get_all_projects number_page 2 = Raise TypeError.
Proof.
  apply (get_all_projects_type_error number_page 1%nat
           (fun _ => [project_one; project_two]) 2%nat (fun _ => None) (PInt 404)).
  - intros k Hk. assert (k = 0%nat) as -> by lia.
    eexists _, _. repeat split; reflexivity.
  - reflexivity.
  - left. exists 404. split; [reflexivity | discriminate].
  - lia.
Defined.

(** X3: the loop has no bound of its own: against a backend whose every
    page is non-empty and announces a next one, it ends within no number
    of iterations. *)
Theorem get_all_projects_unbounded :
  forall server (items_of : nat -> list pyval),
    (forall n, pages_continue server 1 n items_of) ->
    forall fuel, get_all_projects server fuel = OutOfFuel.
Proof.
  intros server items_of Hpages fuel. unfold get_all_projects.
  replace fuel with (fuel + 0)%nat by lia.
  rewrite (fetch_pages_skip server fuel items_of _ _ _ (Hpages fuel)). reflexivity.
Qed.

Lemma get_all_projects_unbounded_witness :
  get_all_projects endless 1000 = OutOfFuel.
Proof.
  refine (get_all_projects_unbounded endless (fun _ => [project_one]) _ 1000%nat).
  intros n k Hk. eexists _, _. repeat split; reflexivity.
Defined.

(** ** The audit in full *)

Section AuditRuns.

Variable server : request -> reply.

(** An iteration that returns has read the identity of the project and
    made one HTTP call. *)
Lemma audit_project_calls project results r calls :
  audit_project server project results = Ret (r, calls) ->
  has_identity project /\ calls = [GET_variables (id_of project)].
Proof.
  unfold audit_project. intros H.
  apply bind_lift_ret_inv in H. destruct H as (id & Hid & H).
  apply bind_lift_ret_inv in H. destruct H as (path & Hpath & H).
  apply bind_ret_inv in H. destruct H as (variables & w1 & w2 & Hvars & H & ->).
  rewrite get_project_variables_returns in Hvars. injection Hvars as <- <-.
  split; [split; eexists; eassumption|].
  unfold id_of. rewrite Hid.
  destruct (truthy _).
  - apply bind_lift_ret_inv in H. destruct H as (n & _ & H).
    apply bind_lift_ret_inv in H. destruct H as (r1 & _ & H).
    apply bind_lift_ret_inv in H. destruct H as (r2 & _ & H).
    apply bind_lift_ret_inv in H. destruct H as (name & _ & H).
    apply bind_lift_ret_inv in H. destruct H as (web_url & _ & H).
    apply bind_lift_ret_inv in H. destruct H as (vars & _ & H).
    apply bind_lift_ret_inv in H. destruct H as (records & _ & H).
    apply lift_ret_inv in H. destruct H as (_ & ->). reflexivity.
  - injection H as _ <-. reflexivity.
Qed.

Lemma audit_loop_calls projects :
  forall results r calls,
    for_each (audit_project server) projects results = Ret (r, calls) ->
    Forall has_identity projects /\
    calls = map (fun p => GET_variables (id_of p)) projects.
Proof.
  induction projects as [|project projects IH]; intros results r calls H;
    cbn [for_each] in H.
  - injection H as _ <-. split; [constructor | reflexivity].
  - apply bind_ret_inv in H. destruct H as (r1 & w1 & w2 & Hstep & H & ->).
    apply audit_project_calls in Hstep. destruct Hstep as (Hid & ->).
    apply IH in H. destruct H as (Hall & ->).
    split; [constructor; assumption | reflexivity].
Qed.

End AuditRuns.

(** X4: an audit that returns has visited every enumerated project
    exactly once, in the order of the enumeration: after the calls of
    the enumeration it made one variables request per project, for the
    id of that project. *)
Theorem audit_secrets_calls :
  forall server fuel now r calls,
    audit_secrets server fuel now = Ret (r, calls) ->
    exists projects calls1,
      get_all_projects server fuel = Ret (projects, calls1) /\
      calls = calls1 ++ map (fun p => GET_variables (id_of p)) projects.
Proof.
  intros server fuel now r calls H. unfold audit_secrets in H.
  apply bind_ret_inv in H. destruct H as (projects & w1 & w2 & Hprojects & H & ->).
  apply audit_loop_calls in H. destruct H as (_ & ->).
  exists projects, w1. split; [exact Hprojects | reflexivity].
Qed.

Lemma audit_secrets_calls_witness :
  exists projects calls1,
    get_all_projects two_pages 2 = Ret (projects, calls1) /\
    two_pages_calls = calls1 ++ map (fun p => GET_variables (id_of p)) projects.
Proof.
  apply (audit_secrets_calls two_pages 2%nat "2024-05-01T12:00:00" two_pages_report).
  vm_compute. reflexivity.
Defined.

(** X5: an audit returns a report only when every enumerated project has
    an [id] and a [path_with_namespace], and every project with
    variables a [name] and a [web_url] as well: a project without one of
    them leaves the audit without a report. *)
Theorem audit_secrets_needs_project_fields :
  forall server fuel now r calls projects calls1,
    get_all_projects server fuel = Ret (projects, calls1) ->
    audit_secrets server fuel now = Ret (r, calls) ->
    Forall has_identity projects /\
    (forall p, In p projects -> has_secrets server p = true -> has_details p).
Proof.
  intros server fuel now r calls projects calls1 Henum H. split.
  - unfold audit_secrets in H.
    apply bind_ret_inv in H. destruct H as (projects' & w1 & w2 & Hprojects & H & _).
    rewrite Henum in Hprojects. injection Hprojects as <- <-.
    apply audit_loop_calls in H. apply H.
  - intros p Hp Hyes. apply audit_secrets_returns in H.
    destruct H as (projects' & calls2 & entries & Hprojects & _ & Hentries).
    rewrite Henum in Hprojects. injection Hprojects as <- <-.
    assert (Hin : In p (filter (has_secrets server) projects))
      by (apply filter_In; split; assumption).
    destruct (Forall2_In_l _ _ _ Hentries p Hin) as (e & _ & Hpe).
    destruct Hpe as [id name path web_url vars records _ Hname _ Hurl _ _ _ _].
    split; eexists; eassumption.
Qed.

Lemma audit_secrets_needs_project_fields_witness :
  Forall has_identity [project_one; project_two] /\
  (forall p, In p [project_one; project_two] ->
             has_secrets two_pages p = true -> has_details p).
Proof.
  apply (audit_secrets_needs_project_fields two_pages 2%nat "2024-05-01T12:00:00"
           two_pages_report two_pages_calls [project_one; project_two]
           [page_request 1; page_request 2]).
  - reflexivity.
  - vm_compute. reflexivity.
Defined.

Lemma bind_ret_eq {E A B : Type} (a : A) (w : list E) (k : A -> M E B) :
  bind (Ret (a, w)) k = after_events w (k a).
Proof. reflexivity. Qed.

Lemma for_each_app {E A B : Type} (body : A -> B -> M E B) l1 l2 :
  forall a a1 w1,
    for_each body l1 a = Ret (a1, w1) ->
    for_each body (l1 ++ l2) a = after_events w1 (for_each body l2 a1).
Proof.
  induction l1 as [|x l1 IH]; intros a a1 w1 H; cbn [for_each app] in *.
  - injection H as <- <-. destruct (for_each body l2 a) as [[b w]| |]; reflexivity.
  - apply bind_ret_inv in H. destruct H as (a' & wx & w' & Hx & H & ->).
    rewrite Hx, bind_ret_eq, (IH _ _ _ H).
    destruct (for_each body l2 a1) as [[b w]| |]; cbn [after_events]; [|reflexivity..].
    rewrite app_assoc. reflexivity.
Qed.

Lemma mapM_variable_record_total l :
  Forall (fun x => exists d, x = PDict d) l ->
  exists records, mapM variable_record l = Ret records.
Proof.
  induction 1 as [|x l (d & ->) _ (records & IH)]; [eexists; reflexivity|].
  cbn [mapM]. rewrite variable_record_dict, IH. eexists. reflexivity.
Qed.

Section AuditTotal.

Variable server : request -> reply.

Lemma audit_project_total project now total entries :
  auditable server project ->
  exists r,
    audit_project server project (report now total entries) =
    Ret (r, [GET_variables (id_of project)]).
Proof.
  intros (((id & Hid) & (path & Hpath)) & Hbody).
  unfold audit_project.
  rewrite (bind_lift_eq _ _ _ Hid), (bind_lift_eq _ _ _ Hpath).
  unfold id_of, has_secrets, fetched in *. rewrite Hid in *.
  rewrite get_project_variables_returns, bind_ret_eq.
  set (v := reply_body (server (GET_variables id))) in *.
  destruct Hbody as [Hno | ((l & Hl & Hobjects) & (name & Hname) & (web_url & Hurl))].
  - rewrite Hno. eexists. reflexivity.
  - rewrite Hl. destruct l as [|x l]; [eexists; reflexivity|].
    cbn [truthy].
    destruct (mapM_variable_record_total _ Hobjects) as (records & Hrecords).
    erewrite bind_lift_eq by reflexivity.
    erewrite bind_lift_eq by reflexivity.
    erewrite bind_lift_eq by reflexivity.
    rewrite (bind_lift_eq _ _ _ Hname), (bind_lift_eq _ _ _ Hurl).
    erewrite bind_lift_eq by reflexivity.
    rewrite (bind_lift_eq _ _ _ Hrecords).
    eexists. reflexivity.
Qed.

Lemma audit_loop_total projects :
  forall now total entries,
    Forall (auditable server) projects ->
    exists entries',
      for_each (audit_project server) projects (report now total entries) =
      Ret (report now total entries', map (fun p => GET_variables (id_of p)) projects).
Proof.
  induction projects as [|p projects IH]; intros now total entries Hall.
  - exists entries. reflexivity.
  - inversion Hall as [|? ? Hp Hrest]; subst.
    destruct (audit_project_total p now total entries Hp) as (r & Hr).
    assert (Hshape : exists entries1, r = report now total entries1).
    { destruct (audit_project_returns server _ _ _ _ _ _ Hr)
        as [(_ & ->) | (_ & e & _ & ->)]; eexists; reflexivity. }
    destruct Hshape as (entries1 & ->).
    destruct (IH now total entries1 Hrest) as (entries' & Hloop).
    exists entries'. cbn [for_each map]. rewrite Hr, bind_ret_eq, Hloop. reflexivity.
Qed.

(** The exception of the first project the audit cannot process escapes
    the audit. *)
Lemma audit_secrets_raises fuel now before X after calls1 e :
  get_all_projects server fuel = Ret (before ++ X :: after, calls1) ->
  Forall (auditable server) before ->
  (forall total entries,
      audit_project server X (report now total entries) = Raise e) ->
  audit_secrets server fuel now = Raise e.
Proof.
  intros Henum Hbefore HX. unfold audit_secrets. rewrite Henum, bind_ret_eq.
  set (total := Z.of_nat (List.length (before ++ X :: after))).
  change (PDict _) with (report now total []).
  destruct (audit_loop_total before now total [] Hbefore) as (entries & Hloop).
  rewrite (for_each_app _ _ _ _ _ _ Hloop). cbn [for_each].
  rewrite HX. reflexivity.
Qed.

End AuditTotal.

(** X6: the audit raises nothing when the backend keeps to the API: if
    the enumeration returns, every project has an [id] and a
    [path_with_namespace], and every non-empty variables body is an array
    of objects of a project with a [name] and a [web_url], then
    [audit_secrets] returns a report. *)
Theorem audit_secrets_returns_report :
  forall server fuel now projects calls1,
    get_all_projects server fuel = Ret (projects, calls1) ->
    Forall (auditable server) projects ->
    exists r calls, audit_secrets server fuel now = Ret (r, calls).
Proof.
  intros server fuel now projects calls1 Henum Hall.
  unfold audit_secrets. rewrite Henum, bind_ret_eq.
  set (total := Z.of_nat (List.length projects)).
  change (PDict _) with (report now total []).
  destruct (audit_loop_total server projects now total [] Hall) as (entries & ->).
  eexists _, _. reflexivity.
Qed.

Lemma audit_secrets_returns_report_witness :
  exists r calls, audit_secrets two_pages 3 "2024-05-01T12:00:00" = Ret (r, calls).
Proof.
  refine (audit_secrets_returns_report two_pages 3 _ [project_one; project_two]
            [page_request 1; page_request 2] eq_refl _).
  apply Forall_cons; [split; [split|]|apply Forall_cons; [split; [split|]|apply Forall_nil]].
  - exists (PInt 1). reflexivity.
  - exists (PStr "group/one"). reflexivity.
  - right. split.
    + exists api_variables. split; [reflexivity|].
      repeat constructor; eexists; reflexivity.
    + split; eexists; reflexivity.
  - exists (PInt 2). reflexivity.
  - exists (PStr "group/two"). reflexivity.
  - left. reflexivity.
Defined.

Lemma bind_lift_raise {E A B : Type} (c : res A) (e : exn) (k : A -> M E B) :
  c = Raise e -> bind (lift c) k = Raise e.
Proof. intros ->. reflexivity. Qed.

Lemma mapM_variable_record_raises l :
  Exists not_object l -> mapM variable_record l = Raise AttributeError.
Proof.
  induction l as [|x l IH]; intros H; [inversion H|].
  cbn [mapM].
  destruct x as [| | | | |d]; try reflexivity.
  rewrite variable_record_dict. cbn [rbind].
  inversion H as [? ? Hx|? ? Hl]; subst; [destruct (Hx d eq_refl)|].
  rewrite (IH Hl). reflexivity.
Qed.

(** A non-empty body is an array of objects or malformed. *)
Lemma truthy_array_or_malformed v :
  truthy v = true -> array_of_objects v \/ exists e, malformed v e.
Proof.
  destruct v as [|b|m|s|l|d]; cbn [truthy]; intros H; try discriminate.
  - right. subst b. eexists. constructor.
  - right. eexists. constructor. intros ->. discriminate.
  - right. eexists. constructor. intros ->. discriminate.
  - clear H. induction l as [|x l [(l' & Hl & Hall)|(e & He)]].
    + left. exists []. split; [reflexivity|constructor].
    + injection Hl as <-.
      assert (Hx : (exists d, x = PDict d) \/ not_object x).
      { destruct x; try (right; intros d' Hd; discriminate). left. eexists. reflexivity. }
      destruct Hx as [Hx|Hx].
      * left. exists (x :: l). split; [reflexivity|constructor; assumption].
      * right. eexists. constructor. apply Exists_cons_hd. exact Hx.
    + right. inversion He; subst. eexists. constructor. apply Exists_cons_tl. assumption.
  - right. eexists. constructor. intros ->. discriminate.
Qed.

Section AuditRaises.

Variable server : request -> reply.

Lemma audit_project_malformed project now total entries e :
  has_identity project ->
  malformed (fetched server project) e ->
  (e = AttributeError -> has_details project) ->
  audit_project server project (report now total entries) = Raise e.
Proof.
  intros ((id & Hid) & (path & Hpath)) Hbody Hdetails.
  unfold audit_project.
  rewrite (bind_lift_eq _ _ _ Hid), (bind_lift_eq _ _ _ Hpath).
  rewrite get_project_variables_returns, bind_ret_eq.
  unfold fetched in Hbody. rewrite Hid in Hbody.
  set (v := reply_body (server (GET_variables id))) in *.
  assert (Hraise : forall l,
             py_iter v = Ret l -> Exists not_object l -> truthy v = true ->
             (exists n, py_len v = Ret n) -> e = AttributeError ->
             after_events [GET_variables id]
               (if truthy v then
                  n <- lift (py_len v) ;;
                  results <- lift (iadd (report now total entries) "projects_with_secrets" 1) ;;
                  results <- lift (iadd results "total_secrets" n) ;;
                  name <- lift (subscript project "name") ;;
                  web_url <- lift (subscript project "web_url") ;;
                  vars <- lift (py_iter v) ;;
                  records <- lift (mapM variable_record vars) ;;
                  lift (append_at results "projects"
                          (PDict [("id", id); ("name", name); ("path", path);
                                  ("web_url", web_url); ("variables", PList records)]))
                else ret (report now total entries)) = Raise e).
  { intros l Hiter Hl Htruthy (n & Hn) ->.
    destruct (Hdetails eq_refl) as ((name & Hname) & (web_url & Hurl)).
    rewrite Htruthy, (bind_lift_eq _ _ _ Hn).
    erewrite bind_lift_eq by reflexivity.
    erewrite bind_lift_eq by reflexivity.
    rewrite (bind_lift_eq _ _ _ Hname), (bind_lift_eq _ _ _ Hurl).
    rewrite (bind_lift_eq _ _ _ Hiter).
    rewrite (bind_lift_raise _ _ _ (mapM_variable_record_raises _ Hl)).
    reflexivity. }
  inversion Hbody as [m Hm Hv|Hv|d Hd Hv|s Hs Hv|l Hl Hv]; subst e.
  - cbn [truthy]. apply Z.eqb_neq in Hm. rewrite Hm. reflexivity.
  - reflexivity.
  - rewrite Hv. apply (Hraise (map (fun kv => PStr (fst kv)) d)); rewrite <- ?Hv;
      [reflexivity| |destruct d; [contradiction|reflexivity]|eexists; reflexivity|reflexivity].
    destruct d as [|kv d]; [contradiction|].
    apply Exists_cons_hd. intros d' Hd'. discriminate.
  - rewrite Hv. apply (Hraise (chars s)); rewrite <- ?Hv;
      [reflexivity| | |eexists; reflexivity|reflexivity].
    + destruct s; [contradiction|]. apply Exists_cons_hd. intros d' Hd'. discriminate.
    + destruct s; [contradiction|reflexivity].
  - rewrite Hv. apply (Hraise l); rewrite <- ?Hv;
      [reflexivity|assumption| |eexists; reflexivity|reflexivity].
    destruct l; [inversion Hl|reflexivity].
Qed.

Lemma audit_project_lacks project now total entries :
  lacks project "id" \/ lacks project "path_with_namespace" \/
  (has_secrets server project = true /\
   (exists n, py_len (fetched server project) = Ret n) /\
   (lacks project "name" \/ lacks project "web_url")) ->
  audit_project server project (report now total entries) = Raise KeyError.
Proof.
  unfold audit_project, lacks.
  intros [(d & -> & Hid)|[(d & -> & Hpath)|(Htruthy & (n & Hn) & Hlacks)]].
  - cbn [subscript]. rewrite Hid. reflexivity.
  - cbn [subscript]. rewrite Hpath.
    destruct (lookup "id" d); reflexivity.
  - assert (Hd : exists d, project = PDict d)
      by (destruct Hlacks as [(d & -> & _)|(d & -> & _)]; eexists; reflexivity).
    destruct Hd as (d & ->).
    unfold has_secrets, fetched in *. cbn [subscript] in *.
    destruct (lookup "id" d) as [id|]; [|reflexivity].
    destruct (lookup "path_with_namespace" d) as [path|]; [|reflexivity].
    rewrite (bind_lift_eq _ id) by reflexivity.
    rewrite (bind_lift_eq _ path) by reflexivity.
    rewrite get_project_variables_returns, bind_ret_eq.
    rewrite Htruthy, (bind_lift_eq _ _ _ Hn).
    erewrite bind_lift_eq by reflexivity.
    erewrite bind_lift_eq by reflexivity.
    destruct Hlacks as [(d' & Hd' & Hname)|(d' & Hd' & Hurl)]; injection Hd' as <-.
    + rewrite Hname. reflexivity.
    + rewrite Hurl. destruct (lookup "name" d); reflexivity.
Qed.

End AuditRaises.

(** X7: a non-empty variables body that is not an array of objects stops
    the audit with an exception: at the first project whose body is a
    non-zero number or [true] a [TypeError] escapes [audit_secrets]; when
    it is a non-empty object or string, or an array with an item that is
    not an object, an [AttributeError] escapes (the project having its
    [name] and [web_url]).  No report is returned. *)
Theorem audit_secrets_malformed_body :
  forall server fuel now before X after calls1 e,
    get_all_projects server fuel = Ret (before ++ X :: after, calls1) ->
    Forall (auditable server) before ->
    has_identity X ->
    malformed (fetched server X) e ->
    (e = AttributeError -> has_details X) ->
    audit_secrets server fuel now = Raise e.
Proof.
  intros server fuel now before X after calls1 e Henum Hbefore Hid Hbody Hdetails.
  apply (audit_secrets_raises server fuel now before X after calls1 e Henum Hbefore).
  intros total entries. apply audit_project_malformed; assumption.
Qed.

Lemma audit_secrets_malformed_body_witness :
  audit_secrets error_object 1 "2024-05-01T12:00:00" = Raise AttributeError.
Proof.
  refine (audit_secrets_malformed_body error_object 1 _ [] project_one []
            [page_request 1] AttributeError eq_refl (Forall_nil _) _ _ _).
  - split; eexists; reflexivity.
  - apply malformed_object. discriminate.
  - intros _. split; eexists; reflexivity.
Defined.

(** X8: a project object without a field the audit reads stops the audit
    with a [KeyError]: at the first project without [id] or without
    [path_with_namespace], or with a non-empty variables body that has a
    length and without [name] or without [web_url], the [KeyError]
    escapes [audit_secrets]. *)
Theorem audit_secrets_missing_project_field :
  forall server fuel now before X after calls1,
    get_all_projects server fuel = Ret (before ++ X :: after, calls1) ->
    Forall (auditable server) before ->
    lacks X "id" \/ lacks X "path_with_namespace" \/
    (has_secrets server X = true /\
     (exists n, py_len (fetched server X) = Ret n) /\
     (lacks X "name" \/ lacks X "web_url")) ->
    audit_secrets server fuel now = Raise KeyError.
Proof.
  intros server fuel now before X after calls1 Henum Hbefore HX.
  apply (audit_secrets_raises server fuel now before X after calls1 KeyError Henum Hbefore).
  intros total entries. apply audit_project_lacks. exact HX.
Qed.

Lemma audit_secrets_missing_project_field_witness :
  audit_secrets project_without_id 1 "2024-05-01T12:00:00" = Raise KeyError.
Proof.
  refine (audit_secrets_missing_project_field project_without_id 1 _ [project_one]
            (PDict [("name", PStr "two")]) [] [page_request 1] eq_refl _ _).
  - apply Forall_cons; [split; [split|]|apply Forall_nil].
    + exists (PInt 1). reflexivity.
    + exists (PStr "group/one"). reflexivity.
    + left. reflexivity.
  - left. eexists. split; reflexivity.
Defined.

(** ** What the report does not depend on *)

Lemma variable_record_same_fields x y :
  same_fields x y -> variable_record x = variable_record y.
Proof.
  intros [->|(d1 & d2 & -> & -> & H)]; [reflexivity|].
  unfold variable_record, py_get, audited_keys in *.
  rewrite !H by (cbn [In]; tauto). reflexivity.
Qed.

Lemma mapM_variable_record_same l1 l2 :
  Forall2 same_fields l1 l2 -> mapM variable_record l1 = mapM variable_record l2.
Proof.
  induction 1 as [|x y l1 l2 Hxy _ IH]; [reflexivity|].
  cbn [mapM]. rewrite (variable_record_same_fields _ _ Hxy), IH. reflexivity.
Qed.

Section OtherFields.

Variables s1 s2 : request -> reply.
Hypothesis Hsame : same_but_other_fields s1 s2.

Lemma fetch_pages_same fuel :
  forall acc p, fetch_pages s1 fuel acc p = fetch_pages s2 fuel acc p.
Proof.
  destruct Hsame as (Hprojects & _).
  induction fuel as [|fuel IH]; intros acc p; [reflexivity|].
  cbn [fetch_pages]. unfold requests_get. rewrite Hprojects.
  unfold bind at 1 3.
  destruct (s2 (GET_projects _)) as [|headers body]; [reflexivity|].
  destruct (negb (truthy body)); [reflexivity|].
  destruct (py_iter body) as [items| |]; [|reflexivity..].
  rewrite !(bind_lift_eq (Ret items) items) by reflexivity.
  destruct (negb (more_pages headers)); [reflexivity|].
  rewrite IH. reflexivity.
Qed.

Lemma audit_project_same project results :
  audit_project s1 project results = audit_project s2 project results.
Proof.
  destruct Hsame as (_ & Hvariables).
  unfold audit_project.
  destruct (subscript project "id") as [id| |]; [|reflexivity..].
  rewrite !(bind_lift_eq (Ret id) id) by reflexivity.
  destruct (subscript project "path_with_namespace") as [path| |]; [|reflexivity..].
  rewrite !(bind_lift_eq (Ret path) path) by reflexivity.
  rewrite !get_project_variables_returns, !bind_ret_eq.
  destruct (Hvariables id) as [Heq|(l1 & l2 & Hb1 & Hb2 & Hall)];
    [rewrite Heq; reflexivity|].
  rewrite Hb1, Hb2.
  assert (Hlen : List.length l1 = List.length l2)
    by exact (Forall2_length Hall).
  cbn [py_len py_iter].
  rewrite !(bind_lift_eq _ _ _ eq_refl).
  destruct Hall as [|x y l1 l2 Hxy Hall]; [reflexivity|].
  cbn [truthy]. rewrite Hlen.
  destruct (iadd results "projects_with_secrets" 1) as [r1| |]; [|reflexivity..].
  rewrite !(bind_lift_eq (Ret r1) r1) by reflexivity.
  destruct (iadd r1 "total_secrets" _) as [r2| |]; [|reflexivity..].
  rewrite !(bind_lift_eq (Ret r2) r2) by reflexivity.
  destruct (subscript project "name") as [name| |]; [|reflexivity..].
  rewrite !(bind_lift_eq (Ret name) name) by reflexivity.
  destruct (subscript project "web_url") as [web_url| |]; [|reflexivity..].
  rewrite !(bind_lift_eq (Ret web_url) web_url) by reflexivity.
  rewrite !(bind_lift_eq _ _ _ eq_refl).
  rewrite (mapM_variable_record_same (x :: l1) (y :: l2)) by (constructor; assumption).
  reflexivity.
Qed.

Lemma audit_loop_same projects :
  forall results,
    for_each (audit_project s1) projects results =
    for_each (audit_project s2) projects results.
Proof.
  induction projects as [|p projects IH]; intros results; [reflexivity|].
  cbn [for_each]. rewrite audit_project_same. unfold bind.
  destruct (audit_project s2 p results) as [[r w]| |]; [|reflexivity..].
  rewrite IH. reflexivity.
Qed.

End OtherFields.

(** X9: the audit reads five fields of a variable object and nothing
    else: two backends that list the same projects and, for every
    project, variable objects with the same [key], [protected], [masked],
    [environment_scope] and [variable_type] (whatever their [value] and
    their other fields) give the same outcome of [audit_secrets]: the same
    report after the same calls, or the same exception. *)
Theorem audit_secrets_ignores_other_fields :
  forall s1 s2 fuel now,
    same_but_other_fields s1 s2 ->
    audit_secrets s1 fuel now = audit_secrets s2 fuel now.
Proof.
  intros s1 s2 fuel now Hsame. unfold audit_secrets, get_all_projects.
  rewrite (fetch_pages_same s1 s2 Hsame). unfold bind.
  destruct (fetch_pages s2 fuel [] 1) as [[projects w]| |]; [|reflexivity..].
  rewrite (audit_loop_same s1 s2 Hsame). reflexivity.
Qed.

Lemma audit_secrets_ignores_other_fields_witness :
  audit_secrets two_pages 3 "2024-05-01T12:00:00" =
  audit_secrets two_pages_other_values 3 "2024-05-01T12:00:00".
Proof.
  refine (audit_secrets_ignores_other_fields two_pages two_pages_other_values 3 _ _).
  split; [reflexivity|].
  intros id.
  assert (Hone : same_body (reply_body (two_pages (GET_variables (PInt 1))))
                           (reply_body (two_pages_other_values (GET_variables (PInt 1))))).
  { right. eexists _, _. split; [reflexivity|]. split; [reflexivity|].
    repeat apply Forall2_cons; try apply Forall2_nil;
      right; eexists _, _; (split; [reflexivity|]); (split; [reflexivity|]);
      intros k [<-|[<-|[<-|[<-|[<-|[]]]]]]; reflexivity. }
  destruct id as [| |m| | |]; try (left; reflexivity).
  destruct m as [|[| |]|]; try (left; reflexivity). exact Hone.
Defined.

(** ** The summary of an audit *)

Lemma sum_Z_perm l l' : Permutation l l' -> sum_Z l = sum_Z l'.
Proof.
  induction 1 as [|x l l' _ IH|x y l|l l' l'' _ IH1 _ IH2]; cbn [sum_Z fold_right] in *.
  - reflexivity.
  - unfold sum_Z in IH. rewrite IH. reflexivity.
  - lia.
  - congruence.
Qed.

Lemma length_flat_map_sum {A B : Type} (f : A -> list B) l :
  Z.of_nat (List.length (flat_map f l)) =
  sum_Z (map (fun x => Z.of_nat (List.length (f x))) l).
Proof.
  induction l as [|x l IH]; [reflexivity|].
  cbn [flat_map map]. rewrite length_app, Nat2Z.inj_add, IH. reflexivity.
Qed.

Lemma stored_from_string_key var record :
  has_string_key var -> stored_from var record -> record_ok record.
Proof.
  intros (d & s & -> & Hkey) Hs. inversion Hs as [d' Hd]; subst.
  unfold field at 1. rewrite Hkey. constructor.
Qed.

Lemma entry_of_string_keys server project e :
  (forall vars, fetched server project = PList vars -> Forall has_string_key vars) ->
  entry_of server project e -> entry_ok e.
Proof.
  intros Hkeys [id name path web_url vars records _ _ _ _ Hf _ Hrec ->].
  constructor. specialize (Hkeys vars Hf). clear Hf.
  induction Hrec as [|var record vars records Hvr _ IH]; [constructor|].
  inversion Hkeys; subst. constructor; [|apply IH; assumption].
  eapply stored_from_string_key; eassumption.
Qed.

Lemma entry_lines_count e :
  entry_ok e ->
  List.length (printed_projects (lines_of (display_project e))) = 1%nat /\
  Z.of_nat (List.length (printed_keys (lines_of (display_project e)))) = count_variables e.
Proof.
  intros [id name path web_url records Hrecords]. split.
  - rewrite (project_lines_projects id name path web_url records Hrecords). reflexivity.
  - destruct (project_lines_keys id name path web_url records Hrecords)
      as (ordered & Hsorted & ->).
    destruct (display_project_prints id name path web_url records Hrecords)
      as (ordered' & Hsorted' & Hperm & _).
    rewrite Hsorted in Hsorted'. injection Hsorted' as <-.
    rewrite length_map, <- (Permutation_length Hperm). reflexivity.
Qed.

(** X10: when the audit finds no project with variables (its counter
    [projects_with_secrets] is 0), the summary of its report is the
    heading with the number of projects and two zeros, followed by the
    one line that no secrets were found, and nothing else. *)
Theorem display_summary_no_secrets :
  forall server fuel now r calls,
    audit_secrets server fuel now = Ret (r, calls) ->
    subscript r "projects_with_secrets" = Ret (PInt 0) ->
    exists projects calls1,
      get_all_projects server fuel = Ret (projects, calls1) /\
      display_summary r =
      Ret (tt, summary_heading (PStr now) (PInt (Z.of_nat (List.length projects)))
                               (PInt 0) (PInt 0) ++ [no_secrets_line]).
Proof.
  intros server fuel now r calls H Hzero.
  apply audit_secrets_returns in H.
  destruct H as (projects & calls1 & entries & Henum & -> & _).
  exists projects, calls1. split; [exact Henum|].
  cbn in Hzero. injection Hzero as Hzero.
  destruct entries as [|e entries]; [reflexivity|].
  cbn [List.length] in Hzero. lia.
Qed.

Lemma display_summary_no_secrets_witness :
  exists projects calls1,
    get_all_projects one_page_then_down 2 = Ret (projects, calls1) /\
    display_summary (report "2024-05-01T12:00:00" 2 []) =
    Ret (tt, summary_heading (PStr "2024-05-01T12:00:00")
                             (PInt (Z.of_nat (List.length projects)))
                             (PInt 0) (PInt 0) ++ [no_secrets_line]).
Proof.
  refine (display_summary_no_secrets one_page_then_down 2 _ (report _ 2 [])
            [page_request 1; page_request 2; GET_variables (PInt 1); GET_variables (PInt 2)]
            eq_refl eq_refl).
Defined.

(** X11: when the keys of the variables the API lists are strings, the
    summary of the report of an audit is printed in full, with one
    project heading per counted project and one bullet line per counted
    variable: the counters [projects_with_secrets] and [total_secrets]
    of the report are the numbers of these lines. *)
Theorem display_summary_line_counts :
  forall server fuel now r calls,
    audit_secrets server fuel now = Ret (r, calls) ->
    (forall id vars,
        reply_body (server (GET_variables id)) = PList vars ->
        Forall has_string_key vars) ->
    exists lines,
      display_summary r = Ret (tt, lines) /\
      subscript r "projects_with_secrets" =
      Ret (PInt (Z.of_nat (List.length (printed_projects lines)))) /\
      subscript r "total_secrets" =
      Ret (PInt (Z.of_nat (List.length (printed_keys lines)))).
Proof.
  intros server fuel now r calls H Hkeys.
  apply audit_secrets_returns in H.
  destruct H as (projects & calls1 & entries & _ & -> & Hentries).
  assert (Hok : Forall entry_ok entries).
  { clear - Hentries Hkeys.
    induction Hentries as [|p e ps es Hpe _ IH]; constructor; [|exact IH].
    apply (entry_of_string_keys server p); [|exact Hpe].
    intros vars Hf. destruct Hpe as [id ? ? ? ? ? Hid _ _ _ _ _ _ _].
    unfold fetched in Hf. rewrite Hid in Hf. exact (Hkeys id vars Hf). }
  destruct entries as [|e0 entries].
  { eexists. split; [reflexivity|]. split; reflexivity. }
  set (es := e0 :: entries) in *.
  destruct (display_summary_prints (PStr now) (PInt (Z.of_nat (List.length projects)))
              (PInt (Z.of_nat (List.length es)))
              (PInt (sum_Z (map count_variables es))) es)
    as (ordered & _ & Hperm & _ & _ & Hd); [discriminate|exact Hok|].
  eexists. split; [exact Hd|].
  assert (Hordered : Forall entry_ok ordered) by (apply (Forall_perm _ _ _ Hperm), Hok).
  unfold printed_projects, printed_keys.
  rewrite !printed_after_app, !printed_after_flat_map.
  change (printed_after (nl ++ "📁 Project: ") (summary_heading _ _ _ _)) with (@nil pyval).
  change (printed_after "   • " (summary_heading _ _ _ _)) with (@nil pyval).
  change (printed_after (nl ++ "📁 Project: ") [[Text (nl ++ times "=" 80)]])
    with (@nil pyval).
  change (printed_after "   • " [[Text (nl ++ times "=" 80)]]) with (@nil pyval).
  rewrite !app_nil_r. cbn [app]. split.
  - cbn [report subscript lookup String.eqb Ascii.eqb Bool.eqb]. do 3 f_equal.
    rewrite (Permutation_length Hperm).
    clear - Hordered. induction Hordered as [|e l He _ IH]; [reflexivity|].
    cbn [flat_map]. rewrite length_app, <- IH.
    fold (printed_projects (lines_of (display_project e))).
    rewrite (proj1 (entry_lines_count e He)). reflexivity.
  - cbn [report subscript lookup String.eqb Ascii.eqb Bool.eqb]. do 2 f_equal.
    rewrite length_flat_map_sum.
    rewrite (sum_Z_perm _ _ (Permutation_map count_variables Hperm)).
    f_equal. apply map_ext_in. intros e He.
    rewrite Forall_forall in Hordered.
    symmetry. apply (proj2 (entry_lines_count e (Hordered e He))).
Qed.

Lemma display_summary_line_counts_witness :
  exists lines,
    display_summary two_pages_report = Ret (tt, lines) /\
    subscript two_pages_report "projects_with_secrets" =
    Ret (PInt (Z.of_nat (List.length (printed_projects lines)))) /\
    subscript two_pages_report "total_secrets" =
    Ret (PInt (Z.of_nat (List.length (printed_keys lines)))).
Proof.
  refine (display_summary_line_counts two_pages 3 "2024-05-01T12:00:00" two_pages_report
            two_pages_calls eq_refl _).
  intros id vars.
  assert (Hone : Forall has_string_key api_variables)
    by (repeat constructor; eexists _, _; split; reflexivity).
  assert (Hnone : PList [] = PList vars -> Forall has_string_key vars)
    by (intros E; injection E as <-; constructor).
  destruct id as [| |m| | |]; try exact Hnone.
  destruct m as [|[| |]|]; try exact Hnone.
  intros E. injection E as <-. exact Hone.
Defined.

(** X12: the two lines of a variable: the bullet with its key, then its
    type, its scope and its annotation, which is [Protected] when
    [protected] is true, [Masked] when [masked] is true, both joined by a
    bar when both are, and [No flags] when neither is.  The five fields
    are read wherever they stand in the record. *)
Theorem display_variable_lines :
  forall d key protected masked scope type,
    lookup "key" d = Some key ->
    lookup "protected" d = Some protected ->
    lookup "masked" d = Some masked ->
    lookup "environment_scope" d = Some scope ->
    lookup "variable_type" d = Some type ->
    display_variable (PDict d) =
    Ret (tt, [[Text "   • "; Str key];
              [Text "     Type: "; Str type; Text " | Scope: "; Str scope;
               Text " | "; Text (flag_annotation (truthy protected) (truthy masked))]]).
Proof.
  intros d key protected masked scope type Hkey Hprotected Hmasked Hscope Htype.
  unfold display_variable. cbn [subscript].
  rewrite Hkey, Hprotected, Hmasked, Hscope, Htype.
  rewrite !(bind_lift_eq _ _ _ eq_refl).
  destruct (truthy protected), (truthy masked); reflexivity.
Qed.

Lemma display_variable_lines_witness :
  display_variable
    (PDict [("key", PStr "A_KEY"); ("protected", PBool false); ("masked", PBool true);
            ("environment_scope", PStr "production"); ("variable_type", PStr "env_var")]) =
  Ret (tt, [[Text "   • "; Str (PStr "A_KEY")];
            [Text "     Type: "; Str (PStr "env_var"); Text " | Scope: ";
             Str (PStr "production"); Text " | "; Text "🎭 Masked"]]).
Proof.
  refine (display_variable_lines
            [("key", PStr "A_KEY"); ("protected", PBool false); ("masked", PBool true);
             ("environment_scope", PStr "production"); ("variable_type", PStr "env_var")]
            (PStr "A_KEY") (PBool false) (PBool true) (PStr "production") (PStr "env_var")
            eq_refl eq_refl eq_refl eq_refl eq_refl).
Defined.

Lemma for_each_outcome {A : Type} (f : A -> M line unit) (e : exn) l :
  (forall x, In x l -> (exists w, f x = Ret (tt, w)) \/ f x = Raise e) ->
  (exists w, for_each (fun x _ => f x) l tt = Ret (tt, w)) \/
  for_each (fun x _ => f x) l tt = Raise e.
Proof.
  induction l as [|x l IH]; intros Hall; [left; eexists; reflexivity|].
  cbn [for_each]. unfold bind.
  destruct (Hall x (or_introl eq_refl)) as [(w & Hw) | Hw]; rewrite Hw;
    [|right; reflexivity].
  destruct IH as [(w' & ->) | ->]; [intros y Hy; apply Hall; right; exact Hy| |].
  - left. eexists. reflexivity.
  - right. reflexivity.
Qed.

(** X13: the summary finds in a report of the audit every field it
    reads: [display_summary] on a report [audit_secrets] returned prints
    its lines or raises a [TypeError] (of the comparison of two keys); no
    [KeyError] and no [AttributeError] escapes it. *)
Theorem display_summary_outcome :
  forall server fuel now r calls,
    audit_secrets server fuel now = Ret (r, calls) ->
    (exists lines, display_summary r = Ret (tt, lines)) \/
    display_summary r = Raise TypeError.
Proof.
  intros server fuel now r calls H.
  apply audit_secrets_returns in H.
  destruct H as (projects & calls1 & entries & _ & -> & Hentries).
  assert (Hshape : Forall entry_shape entries).
  { clear - Hentries. induction Hentries as [|p e ps es Hpe _ IH]; constructor;
      [eapply entry_of_shape; exact Hpe | exact IH]. }
  destruct entries as [|e0 entries]; [left; eexists; reflexivity|].
  set (es := e0 :: entries) in *.
  destruct (sorted_by_key is_int int_lt int_same int_lt_dom int_lt_asym int_lt_not_same
                          by_count (fun e => PInt (count_variables e)) true es)
    as (ordered & Hsorted & Hperm & _ & _).
  { intros x Hx. rewrite Forall_forall in Hshape.
    destruct (Hshape x Hx). split; [reflexivity | eexists; reflexivity]. }
  unfold display_summary, report.
  rewrite !bind_print.
  rewrite (bind_lift_eq _ (PStr now)) by reflexivity. rewrite bind_print.
  rewrite (bind_lift_eq _ (PInt (Z.of_nat (List.length projects)))) by reflexivity.
  rewrite bind_print.
  rewrite (bind_lift_eq _ (PInt (Z.of_nat (List.length es)))) by reflexivity.
  rewrite bind_print.
  rewrite (bind_lift_eq _ (PInt (sum_Z (map count_variables es)))) by reflexivity.
  rewrite !bind_print.
  rewrite (bind_lift_eq _ (PList es)) by reflexivity.
  subst es. cbn [truthy negb].
  change (fun x => let* vs := subscript x "variables" in
                   let* n := py_len vs in Ret (PInt n)) with by_count.
  rewrite (bind_lift_eq _ ordered) by exact Hsorted.
  destruct (for_each_outcome display_project TypeError ordered) as [(w & Hw) | Hw].
  - intros x Hx. apply display_project_outcome.
    apply (Forall_perm _ _ _ Hperm) in Hshape.
    rewrite Forall_forall in Hshape. apply Hshape, Hx.
  - left. unfold bind at 1. rewrite Hw. eexists. reflexivity.
  - right. unfold bind at 1. rewrite Hw. reflexivity.
Qed.

Lemma display_summary_outcome_witness :
  (exists lines, display_summary missing_key_report = Ret (tt, lines)) \/
  display_summary missing_key_report = Raise TypeError.
Proof.
  exact (display_summary_outcome missing_key 1 "2024-05-01T12:00:00" missing_key_report
           [page_request 1; GET_variables (PInt 1)] eq_refl).
Defined.

(** ** The auditor and the command line *)

Lemma rstrip_empty chars s :
  rstrip chars s = EmptyString <-> all_chars chars s = true.
Proof.
  induction s as [|c s IH]; cbn [rstrip all_chars]; [tauto|].
  destruct (rstrip chars s) as [|a r].
  - destruct (chars c); cbn [andb].
    + split; intros _; [apply IH|]; reflexivity.
    + split; discriminate.
  - split; [discriminate|]. intros H. apply andb_true_iff in H.
    destruct H as (_ & H). apply IH in H. discriminate.
Qed.

Lemma lstrip_all_chars chars s :
  all_chars chars (lstrip chars s) = all_chars chars s.
Proof.
  induction s as [|c s IH]; [reflexivity|].
  cbn [lstrip]. destruct (chars c) eqn:Hc; [|reflexivity].
  cbn [all_chars]. rewrite Hc. exact IH.
Qed.

Lemma strip_empty s : strip s = EmptyString <-> all_chars isspace s = true.
Proof. unfold strip. rewrite rstrip_empty, lstrip_all_chars. tauto. Qed.

Lemma forallb_quiet_printed lines : forallb quiet (map Printed lines) = true.
Proof. induction lines as [|l lines IH]; [reflexivity|exact IH]. Qed.

(** X16: [main] calls [sys.exit] only for a missing token, with status
    1 and before any request or file: it does so exactly when the token
    of the command line is the empty string or, without one, when the
    line typed at the prompt holds nothing but blanks.  A token of the
    command line is not stripped. *)
Theorem main_exits_without_token :
  forall net writable argv stdin fuel now,
    (forall code,
        snd (main net writable argv stdin fuel now) = SystemExit code ->
        code = 1 /\ forallb quiet (fst (main net writable argv stdin fuel now)) = true) /\
    (snd (main net writable argv stdin fuel now) = SystemExit 1 <->
     (exists name rest, argv = name :: EmptyString :: rest) \/
     ((List.length argv <= 1)%nat /\
      exists typed, stdin = Some typed /\ all_chars isspace typed = true)).
Proof.
  intros net writable argv stdin fuel now. unfold main. cbv zeta.
  assert (Hblank : forall typed,
             strip typed = EmptyString <->
             (exists name rest, @nil string = name :: EmptyString :: rest) \/
             ((0 <= 1)%nat /\
              exists typed', Some typed = Some typed' /\ all_chars isspace typed' = true)).
  { intros typed. rewrite strip_empty. split.
    - intros H. right. split; [lia|]. exists typed. split; [reflexivity|exact H].
    - intros [(name & rest & H)|(_ & typed' & H & Hblank)]; [discriminate|].
      injection H as ->. exact Hblank. }
  destruct argv as [|name [|t rest]]; [destruct stdin as [typed|]..|];
    cbn [option_map List.length].
  - destruct (String.eqb_spec (strip typed) "") as [E|N].
    + split; [intros code H; injection H as <-; split; reflexivity|].
      split; [intros _; apply Hblank, E|reflexivity].
    + destruct (audit_secrets _ fuel now) as [[results calls]|e|];
        [destruct (writable _); [destruct (display_summary results) as [[[] lines]|e|]|]|..];
        cbn [snd]; (split; [intros code; discriminate|]);
        (split; [discriminate|intros H; apply Hblank in H; destruct (N H)]).
  - split; [discriminate|]. split; [discriminate|].
    intros [(name & rest & H)|(_ & typed' & H & _)]; discriminate.
  - assert (Hblank' : strip typed = EmptyString <->
             (exists name' rest, [name] = name' :: EmptyString :: rest) \/
             ((1 <= 1)%nat /\
              exists typed', Some typed = Some typed' /\ all_chars isspace typed' = true)).
    { rewrite Hblank. split.
      - intros [(? & ? & H)|(_ & H)]; [discriminate|]. right. split; [lia|exact H].
      - intros [(? & ? & H)|(_ & H)]; [discriminate|]. right. split; [lia|exact H]. }
    destruct (String.eqb_spec (strip typed) "") as [E|N].
    + split; [intros code H; injection H as <-; split; reflexivity|].
      split; [intros _; apply Hblank', E|reflexivity].
    + destruct (audit_secrets _ fuel now) as [[results calls]|e|];
        [destruct (writable _); [destruct (display_summary results) as [[[] lines]|e|]|]|..];
        cbn [snd]; (split; [intros code; discriminate|]);
        (split; [discriminate|intros H; apply Hblank' in H; destruct (N H)]).
  - split; [discriminate|]. split; [discriminate|].
    intros [(name' & rest & H)|(_ & typed' & H & _)]; discriminate.
  - assert (Hempty : t = EmptyString <->
             (exists name' rest', name :: t :: rest = name' :: EmptyString :: rest') \/
             ((S (S (List.length rest)) <= 1)%nat /\
              exists typed, stdin = Some typed /\ all_chars isspace typed = true)).
    { split.
      - intros ->. left. exists name, rest. reflexivity.
      - intros [(name' & rest' & H)|(Hlen & _)]; [|lia].
        injection H as _ -> _. reflexivity. }
    destruct (String.eqb_spec t "") as [E|N].
    + split; [intros code H; injection H as <-; split; reflexivity|].
      split; [intros _; apply Hempty, E|reflexivity].
    + destruct (audit_secrets _ fuel now) as [[results calls]|e|];
        [destruct (writable _); [destruct (display_summary results) as [[[] lines]|e|]|]|..];
        cbn [snd]; (split; [intros code; discriminate|]);
        (split; [discriminate|intros H; apply Hempty in H; destruct (N H)]).
Qed.

(** X17: the report is saved before the summary is displayed: with a
    token on the command line, when the audit returns a report and the
    file can be opened, [main] sends the requests of the audit to the URL
    of the command line without its trailing slashes, under the token
    header, then writes the report to [gitlab_secrets_audit.json], and
    only then prints the summary; when the summary raises, the exception
    escapes [main] after the file was written. *)
Theorem main_saves_before_summary :
  forall net writable name t rest stdin fuel now results calls,
    t <> EmptyString ->
    let auditor := __init__ t (url_argument rest) in
    audit_secrets (net auditor.(gitlab_url) auditor.(headers)) fuel now =
    Ret (results, calls) ->
    writable "gitlab_secrets_audit.json"%string = true ->
    exists before after,
      fst (main net writable (name :: t :: rest) stdin fuel now) =
      before ++
      map (Requested (rstrip (Ascii.eqb "/") (url_argument rest))
                     [("PRIVATE-TOKEN", t); ("Content-Type", "application/json")]%string)
          calls ++
      Saved "gitlab_secrets_audit.json" (save_results results) :: after /\
      forallb quiet before = true /\
      (forall lines,
          display_summary results = Ret (tt, lines) ->
          after = map Printed lines /\
          snd (main net writable (name :: t :: rest) stdin fuel now) = Finished) /\
      (forall e,
          display_summary results = Raise e ->
          after = [] /\
          snd (main net writable (name :: t :: rest) stdin fuel now) = Escaped e).
Proof.
  intros net writable name t rest stdin fuel now results calls Ht auditor Haudit Hwritable.
  assert (Hmain : main net writable (name :: t :: rest) stdin fuel now =
                  let banner := [Printed [Text (times "=" 80)];
                                 Printed [Text "GitLab CI/CD Variables (Secrets) Auditor"];
                                 Printed [Text (times "=" 80 ++ nl)]] in
                  let announced := [Printed [Text "Using GitLab instance: ";
                                             Str (PStr (url_argument rest)); Text nl]] in
                  let audited := map (Requested auditor.(gitlab_url) auditor.(headers)) calls in
                  let saved := [Saved "gitlab_secrets_audit.json" (save_results results)] in
                  match display_summary results with
                  | Ret (_, lines) =>
                      (banner ++ [] ++ announced ++ audited ++ saved ++ map Printed lines,
                       Finished)
                  | Raise e => (banner ++ [] ++ announced ++ audited ++ saved, Escaped e)
                  | OutOfFuel => (banner ++ [] ++ announced ++ audited ++ saved, Unfinished)
                  end).
  { unfold main. cbv zeta.
    destruct (String.eqb_spec t "") as [E|_]; [destruct (Ht E)|].
    replace (match rest with
             | [] => "https://gitlab.com"%string
             | u :: _ => u
             end) with (url_argument rest) by (destruct rest; reflexivity).
    fold auditor. rewrite Haudit, Hwritable. reflexivity. }
  rewrite Hmain. cbv zeta.
  exists [Printed [Text (times "=" 80)];
          Printed [Text "GitLab CI/CD Variables (Secrets) Auditor"];
          Printed [Text (times "=" 80 ++ nl)];
          Printed [Text "Using GitLab instance: "; Str (PStr (url_argument rest)); Text nl]].
  exists (match display_summary results with
          | Ret (_, lines) => map Printed lines
          | _ => []
          end).
  split; [|split; [reflexivity|split]].
  - destruct (display_summary results) as [[[] lines]|e|]; reflexivity.
  - intros lines ->. split; reflexivity.
  - intros e ->. split; reflexivity.
Qed.

Lemma main_saves_before_summary_witness :
  exists before after,
    fst (main missing_key_network (fun _ => true) token_given None 1 "2024-05-01T12:00:00") =
    before ++
    map (Requested "https://gitlab.com"
                   [("PRIVATE-TOKEN", "glpat-x"); ("Content-Type", "application/json")]%string)
        [page_request 1; GET_variables (PInt 1)] ++
    Saved "gitlab_secrets_audit.json" (save_results missing_key_report) :: after /\
    forallb quiet before = true /\
    (forall lines,
        display_summary missing_key_report = Ret (tt, lines) ->
        after = map Printed lines /\
        snd (main missing_key_network (fun _ => true) token_given None 1
                  "2024-05-01T12:00:00") = Finished) /\
    (forall e,
        display_summary missing_key_report = Raise e ->
        after = [] /\
        snd (main missing_key_network (fun _ => true) token_given None 1
                  "2024-05-01T12:00:00") = Escaped e).
Proof.
  refine (main_saves_before_summary missing_key_network (fun _ => true)
            "gitlab.py" "glpat-x" [] None 1 "2024-05-01T12:00:00" missing_key_report
            [page_request 1; GET_variables (PInt 1)] _ eq_refl eq_refl).
  discriminate.
Defined.

(** X18: a report that cannot be written is not displayed: when the
    audit returns a report and [gitlab_secrets_audit.json] cannot be
    opened for writing, [main] stops on the error after the requests of
    the audit: it writes no file and prints no line of the summary. *)
Theorem main_unwritable_report :
  forall net writable name t rest stdin fuel now results calls,
    t <> EmptyString ->
    let auditor := __init__ t (url_argument rest) in
    audit_secrets (net auditor.(gitlab_url) auditor.(headers)) fuel now =
    Ret (results, calls) ->
    writable "gitlab_secrets_audit.json"%string = false ->
    exists before,
      main net writable (name :: t :: rest) stdin fuel now =
      (before ++ map (Requested auditor.(gitlab_url) auditor.(headers)) calls, OSError) /\
      forallb quiet before = true.
Proof.
  intros net writable name t rest stdin fuel now results calls Ht auditor Haudit Hwritable.
  exists [Printed [Text (times "=" 80)];
          Printed [Text "GitLab CI/CD Variables (Secrets) Auditor"];
          Printed [Text (times "=" 80 ++ nl)];
          Printed [Text "Using GitLab instance: "; Str (PStr (url_argument rest)); Text nl]].
  split; [|reflexivity].
  unfold main. cbv zeta.
  destruct (String.eqb_spec t "") as [E|_]; [destruct (Ht E)|].
  replace (match rest with
           | [] => "https://gitlab.com"%string
           | u :: _ => u
           end) with (url_argument rest) by (destruct rest; reflexivity).
  fold auditor. rewrite Haudit, Hwritable. reflexivity.
Qed.

Lemma main_unwritable_report_witness :
  exists before,
    main missing_key_network (fun _ => false) token_given None 1 "2024-05-01T12:00:00" =
    (before ++
     map (Requested "https://gitlab.com"
                    [("PRIVATE-TOKEN", "glpat-x"); ("Content-Type", "application/json")]%string)
         [page_request 1; GET_variables (PInt 1)], OSError) /\
    forallb quiet before = true.
Proof.
  refine (main_unwritable_report missing_key_network (fun _ => false)
            "gitlab.py" "glpat-x" [] None 1 "2024-05-01T12:00:00" missing_key_report
            [page_request 1; GET_variables (PInt 1)] _ eq_refl eq_refl).
  discriminate.
Defined.

(** X19: the auditor keeps the given URL without its trailing slashes:
    the URL is the kept one followed by slashes only, and the kept one
    does not end with a slash; the token is sent as given, as the
    [PRIVATE-TOKEN] header. *)
Theorem init_strips_trailing_slashes :
  forall t url,
    let auditor := __init__ t url in
    (exists n, url = (auditor.(gitlab_url) ++ slashes n)%string) /\
    last_char auditor.(gitlab_url) <> Some "/"%char /\
    In ("PRIVATE-TOKEN"%string, t) auditor.(headers).
Proof.
  intros t url auditor. subst auditor. cbn [__init__ gitlab_url token headers].
  split; [|split; [|left; reflexivity]].
  - induction url as [|c url (n & IH)]; [exists 0%nat; reflexivity|].
    cbn [rstrip]. destruct (rstrip (Ascii.eqb "/") url) as [|a r].
    + destruct (Ascii.eqb_spec "/" c) as [<-|_].
      * exists (S n). cbn [slashes String.append] in *. rewrite <- IH. reflexivity.
      * exists n. cbn [String.append] in *. rewrite <- IH. reflexivity.
    + exists n. cbn [String.append] in *. rewrite <- IH. reflexivity.
  - induction url as [|c url IH]; [discriminate|].
    cbn [rstrip]. destruct (rstrip (Ascii.eqb "/") url) as [|a r].
    + destruct (Ascii.eqb_spec "/" c) as [<-|N]; [discriminate|].
      cbn [last_char]. intros H. injection H as ->. apply N. reflexivity.
    + exact IH.
Qed.
